(** * GatherWebTargets.run  (pipeline/recon/web/targets.py)

    A shallow embedding of the web-target aggregation task and the
    properties of its merge, filter and de-duplication of the masscan
    and amass results. *)

From stdpp Require Import gmap strings list fin_maps fin_sets pretty.

#[local] Set Warnings "-clear-no-such-hyp,-register-all".

Local Open Scope N_scope.

(** ** Python strings

    A Python [str] is a sequence of Unicode code points. *)

Definition char : Type := N.
Definition pystr : Type := list char.

(** An ASCII literal of the source as a [pystr]. *)
Definition py (s : string) : pystr :=
  (λ a, Ascii.N_of_ascii a) <$> String.list_ascii_of_string s.

(** [str.isspace] for a single code point: the characters that
    [str.strip()] without argument removes. *)
Definition isspace (c : char) : bool :=
  ((9 <=? c) && (c <=? 13))
  || ((28 <=? c) && (c <=? 32))
  || (c =? 133) || (c =? 160) || (c =? 5760)
  || ((8192 <=? c) && (c <=? 8202))
  || (c =? 8232) || (c =? 8233) || (c =? 8239) || (c =? 8287)
  || (c =? 12288).

Fixpoint lstrip (s : pystr) : pystr :=
  match s with
  | [] => []
  | c :: s' => if isspace c then lstrip s' else s
  end.

Definition rstrip (s : pystr) : pystr := reverse (lstrip (reverse s)).

(** [s.strip()] *)
Definition strip (s : pystr) : pystr := rstrip (lstrip s).

(** [f"{target}:{port}"] for [str] operands. *)
Definition host_port (target port : pystr) : pystr :=
  target ++ py ":" ++ port.

(** [f"{target}\n"] *)
Definition line_of (target : pystr) : pystr := target ++ [10].

(** ** The task

    [web_ports] is the module-level set imported from [..config]; the
    masscan pickle is a dict [{ip: {protocol: set(ports)}}]; an opened
    amass result file is the sequence of lines its iteration yields. *)

Abbreviation scan_result := (gmap pystr (gmap pystr (gset pystr))).
Abbreviation amass_files := (list (list pystr)).

Section GatherWebTargets.
Variable web_ports : gset pystr.

(** Body of the innermost loop: one [(target, protocol, port)]. *)
Definition visit_port (target protocol port : pystr)
    (targets : gset pystr) : gset pystr :=
  if decide (protocol = py "udp") then targets
  else if decide (port = py "80") then {[ target ]} ∪ targets
  else if decide (port ∈ web_ports) then {[ host_port target port ]} ∪ targets
  else targets.

(** [for port in ports] *)
Definition visit_ports (target protocol : pystr) (ports : gset pystr)
    (targets : gset pystr) : gset pystr :=
  set_fold (visit_port target protocol) targets ports.

(** [for protocol, ports in protocol_dict.items()] *)
Definition visit_protocols (target : pystr)
    (protocol_dict : gmap pystr (gset pystr))
    (targets : gset pystr) : gset pystr :=
  map_fold (visit_ports target) targets protocol_dict.

(** [for target, protocol_dict in ip_dict.items()] *)
Definition scan_loop (ip_dict : scan_result)
    (targets : gset pystr) : gset pystr :=
  map_fold visit_protocols targets ip_dict.

(** [targets.add(target.strip())] *)
Definition visit_line (target : pystr) (targets : gset pystr) : gset pystr :=
  {[ strip target ]} ∪ targets.

(** [for target in f] *)
Definition read_lines (f : list pystr) (targets : gset pystr) : gset pystr :=
  foldl (λ acc target, visit_line target acc) targets f.

(** [for amass_result in ...values()] *)
Definition amass_loop (files : amass_files)
    (targets : gset pystr) : gset pystr :=
  foldl (λ acc f, read_lines f acc) targets files.

(** The set [targets] when the output file is opened. *)
Definition gather (ip_dict : scan_result) (files : amass_files) : gset pystr :=
  amass_loop files (scan_loop ip_dict ∅).

(** The two loop nests in the other order. *)
Definition gather_swapped (ip_dict : scan_result) (files : amass_files)
    : gset pystr :=
  scan_loop ip_dict (amass_loop files ∅).

(** [for target in targets: f.write(f"{target}\n")]: the strings
    written.  Python iterates a set in an order that depends on how it
    was built; [elements] stands for that order, so of this list only
    the members and how often each occurs are meant. *)
Definition write_targets (targets : gset pystr) : list pystr :=
  line_of <$> elements targets.

Definition run (ip_dict : scan_result) (files : amass_files) : list pystr :=
  write_targets (gather ip_dict files).
End GatherWebTargets.

(** ** The task on whatever the pickle holds *)

(** Hashable objects: [None], an [int], a [str]. *)
Inductive pykey : Type :=
  | KNone
  | KInt (z : Z)
  | KStr (s : pystr).

(** A fragment of the objects [pickle.load] can return. *)
Inductive pyobj : Type :=
  | PyKey (k : pykey)
  | PyList (l : list pyobj)
  | PySet (l : list pykey)
  | PyDict (l : list (pykey * pyobj)).

#[global] Instance pykey_eq_dec : EqDecision pykey.
Proof. solve_decision. Defined.

#[global] Instance pykey_countable : Countable pykey.
Proof.
  refine (inj_countable'
    (λ k, match k with
          | KNone => inl ()
          | KInt z => inr (inl z)
          | KStr s => inr (inr s)
          end)
    (λ x, match x with
          | inl _ => KNone
          | inr (inl z) => KInt z
          | inr (inr s) => KStr s
          end) _).
  by intros [].
Defined.

(** The outcome of a Python expression: a value, or a raised exception
    named by its class. *)
Inductive result (A : Type) : Type :=
  | Ok (a : A)
  | Raise (cls : string).
Arguments Ok {A} a.
Arguments Raise {A} cls.

#[global] Instance result_ret : MRet result := λ A, Ok.
#[global] Instance result_bind : MBind result := λ A B f m,
  match m with
  | Ok a => f a
  | Raise cls => Raise cls
  end.

(** [for x in l: body], stopping at the first exception. *)
Fixpoint for_each {A S : Type} (body : A → S → result S)
    (l : list A) (s : S) : result S :=
  match l with
  | [] => Ok s
  | x :: l' => s' ← body x s; for_each body l' s'
  end.

(** [str(k)], which is also what an f-string field gives. *)
Definition str (k : pykey) : pystr :=
  match k with
  | KNone => py "None"
  | KInt z => py (pretty z)
  | KStr s => s
  end.

(** [o.items()] *)
Definition items (o : pyobj) : result (list (pykey * pyobj)) :=
  match o with
  | PyDict l => Ok l
  | _ => Raise "AttributeError"
  end.

(** The objects [for x in o] goes through. *)
Definition iter (o : pyobj) : result (list pyobj) :=
  match o with
  | PyKey (KStr s) => Ok ((λ c, PyKey (KStr [c])) <$> s)
  | PyKey _ => Raise "TypeError"
  | PyList l => Ok l
  | PySet l => Ok (PyKey <$> l)
  | PyDict l => Ok ((λ kv, PyKey kv.1) <$> l)
  end.

(** What the task sees of the disk: whether the [target-results]
    folder exists, and the strings written to [webtargets.txt], if the
    file exists. *)
Record filesystem : Type := Filesystem {
  target_results : bool;
  webtargets : option (list pystr)
}.

(** The order in which a [set] is iterated: some order of its elements,
    which one depends on how the set was built and on the hash seed. *)
Record set_order : Type := SetOrder {
  iterate : gset pykey → list pykey;
  iterate_perm : ∀ targets, iterate targets ≡ₚ elements targets
}.

(** What the world outside answers to the calls of [run]: to creating
    the folder (line 71), to [pickle.load] (line 75), to opening and
    reading each amass result (lines 96-98), to opening the output
    (line 102), to each [f.write] (line 104) and to leaving the [with]
    block, and the order in which [targets] is iterated. *)
Record environment : Type := Environment {
  made : result ();
  unpickled : result pyobj;
  amass : list (result (list pystr));
  opened : result ();
  written : pystr → result ();
  closed : result ();
  order : set_order
}.

Section GatherWebTargetsPy.
Variable web_ports : gset pystr.

(** Body of the innermost loop.  Only a [str] equals ["80"]; the
    membership test [port in web_ports] hashes [port], which raises
    for a list or a dict, retries a set as a frozenset, and is false
    for [None] and for an [int]. *)
Definition visit_port_py (target protocol : pykey) (port : pyobj)
    (targets : gset pykey) : result (gset pykey) :=
  if decide (protocol = KStr (py "udp")) then Ok targets
  else match port with
       | PyKey (KStr p) =>
           if decide (p = py "80") then Ok ({[ target ]} ∪ targets)
           else if decide (p ∈ web_ports)
                then Ok ({[ KStr (host_port (str target) p) ]} ∪ targets)
                else Ok targets
       | PyKey _ | PySet _ => Ok targets
       | PyList _ | PyDict _ => Raise "TypeError"
       end.

Definition visit_ports_py (target protocol : pykey) (ports : pyobj)
    (targets : gset pykey) : result (gset pykey) :=
  l ← iter ports; for_each (visit_port_py target protocol) l targets.

Definition visit_protocols_py (target : pykey) (protocol_dict : pyobj)
    (targets : gset pykey) : result (gset pykey) :=
  l ← items protocol_dict;
  for_each (λ kv, visit_ports_py target kv.1 kv.2) l targets.

Definition scan_loop_py (ip_dict : pyobj)
    (targets : gset pykey) : result (gset pykey) :=
  l ← items ip_dict;
  for_each (λ kv, visit_protocols_py kv.1 kv.2) l targets.

(** An amass result file yields its lines, or opening or reading it
    raises. *)
Definition read_file_py (f : result (list pystr))
    (targets : gset pykey) : result (gset pykey) :=
  lines ← f;
  Ok (foldl (λ acc target, {[ KStr (strip target) ]} ∪ acc) targets lines).

Definition amass_loop_py (files : list (result (list pystr)))
    (targets : gset pykey) : result (gset pykey) :=
  for_each read_file_py files targets.

(** The reading part of [run]: the set [targets] when the output file
    is opened, given what [pickle.load] returned or raised and, for each
    amass result, the lines read or what opening or reading it raised. *)
Definition gather_py (unpickled : result pyobj)
    (files : list (result (list pystr))) : result (gset pykey) :=
  ip_dict ← unpickled;
  targets ← scan_loop_py ip_dict ∅;
  amass_loop_py files targets.
End GatherWebTargetsPy.

(** [Path(self.output().path).parent.mkdir(parents=True, exist_ok=True)]
    when it raises nothing. *)
Definition mkdir (fs : filesystem) : filesystem :=
  {| target_results := true; webtargets := webtargets fs |}.

(** The strings [f.write] is called with, in the order [targets] is
    iterated. *)
Definition lines_py (o : set_order) (targets : gset pykey) : list pystr :=
  (λ k, line_of (str k)) <$> iterate o targets.

(** [with self.output().open("w") as f: for target in targets: f.write(...)].
    The output is a luigi [LocalTarget]: what is written goes to a
    temporary file that replaces [webtargets.txt] only when the [with]
    block is left without an exception. *)
Definition write_targets_py (env : environment)
    (targets : gset pykey) : result (list pystr) :=
  opened env;;
  for_each (λ line _, written env line) (lines_py (order env) targets) ();;
  closed env;;
  Ok (lines_py (order env) targets).

(** [run] *)
Definition run_py (web_ports : gset pystr) (env : environment)
    (fs : filesystem) : result () * filesystem :=
  match made env with
  | Raise cls => (Raise cls, fs)
  | Ok _ =>
      match targets ← gather_py web_ports (unpickled env) (amass env);
            write_targets_py env targets with
      | Ok lines =>
          (Ok (), {| target_results := true; webtargets := Some lines |})
      | Raise cls => (Raise cls, mkdir fs)
      end
  end.





(** An environment in which the disk raises nothing, the output is
    encoded as UTF-8, which has no encoding for a surrogate, and sets
    are iterated in the order of [elements]. *)
Definition canonical_order : set_order :=
  {| iterate := elements; iterate_perm := λ targets, reflexivity _ |}.

Definition is_surrogate (c : char) : bool := (55296 <=? c) && (c <=? 57343).

Definition utf8_write (s : pystr) : result () :=
  if existsb is_surrogate s then Raise "UnicodeEncodeError" else Ok ().

Definition quiet (unpickled : result pyobj)
    (files : list (result (list pystr))) : environment :=
  {| made := Ok (); unpickled := unpickled; amass := files;
     opened := Ok (); written := utf8_write; closed := Ok ();
     order := canonical_order |}.


(** The lines a text-mode read of [content] yields: a line ends at
    ["\n"], ["\r"] or ["\r\n"], each handed over as ["\n"]. *)
Fixpoint text_lines_from (after_cr : bool) (line content : pystr)
    : list pystr :=
  match content with
  | [] => match line with [] => [] | _ => [line] end
  | c :: rest =>
      if c =? 10 then
        if after_cr then text_lines_from false line rest
        else (line ++ [10]) :: text_lines_from false [] rest
      else if c =? 13 then (line ++ [10]) :: text_lines_from true [] rest
      else text_lines_from false (line ++ [c]) rest
  end.

Definition text_lines (content : pystr) : list pystr :=
  text_lines_from false [] content.

(** The shape the task's comment gives for the pickle:
    [{ip: {protocol: set(ports)}}], all of them strings. *)
Definition is_str (k : pykey) : bool :=
  match k with KStr _ => true | _ => false end.

Definition is_port_set (o : pyobj) : bool :=
  match o with PySet l => forallb is_str l | _ => false end.

Definition is_protocol_dict (o : pyobj) : bool :=
  match o with
  | PyDict l => forallb (λ kv, is_str kv.1 && is_port_set kv.2) l
  | _ => false
  end.

Definition is_scan_result (o : pyobj) : bool :=
  match o with
  | PyDict l => forallb (λ kv, is_str kv.1 && is_protocol_dict kv.2) l
  | _ => false
  end.

(** The pickle of a scan result, the items of each dict and set listed
    in the order [scan_loop] visits them. *)
Definition ports_to_py (ports : gset pystr) : pyobj :=
  PySet (KStr <$> reverse (elements ports)).

Definition protocols_to_py (protocol_dict : gmap pystr (gset pystr)) : pyobj :=
  PyDict ((λ kv, (KStr kv.1, ports_to_py kv.2)) <$>
          reverse (map_to_list protocol_dict)).

Definition scan_to_py (ip_dict : scan_result) : pyobj :=
  PyDict ((λ kv, (KStr kv.1, protocols_to_py kv.2)) <$>
          reverse (map_to_list ip_dict)).

Definition no_disk : filesystem :=
  {| target_results := false; webtargets := None |}.


(** ** What each source contributes *)

(** The entry, if any, that one scan triple adds to [targets]. *)
Definition emits (web_ports : gset pystr)
    (target protocol port x : pystr) : Prop :=
  protocol ≠ py "udp" ∧
  ((port = py "80" ∧ x = target) ∨
   (port ≠ py "80" ∧ port ∈ web_ports ∧ x = host_port target port)).

(** [port] is listed under [protocol] for [target] in the scan result. *)
Definition has_port (ip_dict : scan_result)
    (target protocol port : pystr) : Prop :=
  ∃ protocol_dict ports,
    ip_dict !! target = Some protocol_dict ∧
    protocol_dict !! protocol = Some ports ∧ port ∈ ports.

Definition scan_emits (web_ports : gset pystr)
    (ip_dict : scan_result) (x : pystr) : Prop :=
  ∃ target protocol port,
    has_port ip_dict target protocol port ∧
    emits web_ports target protocol port x.

(** The scan result with one [(target, protocol, port)] taken out. *)
Definition drop_port (target protocol port : pystr)
    (ip_dict : scan_result) : scan_result :=
  alter (alter (λ ports, ports ∖ {[ port ]}) protocol) target ip_dict.

(** The scan result with every [udp] entry taken out. *)
Definition drop_udp (ip_dict : scan_result) : scan_result :=
  delete (py "udp") <$> ip_dict.

Definition amass_emits (files : amass_files) (x : pystr) : Prop :=
  ∃ f line, f ∈ files ∧ line ∈ f ∧ x = strip line.

(** How many of the written strings are the line for entry [x]. *)
Definition occurrences (x : pystr) (out : list pystr) : nat :=
  length (filter (λ l, l = line_of x) out).

(** ** Inputs of the documented scenarios *)

Definition scenario1 : scan_result :=
  {[ py "10.0.0.1" := {[ py "tcp" := {[ py "80"; py "8080" ]};
                         py "udp" := {[ py "53" ]} ]} ]}.

Definition subdomains1 : amass_files :=
  [[ py "sub.example.com"; py " "; py "sub.example.com" ]].

Definition scenario2 : scan_result :=
  {[ py "10.0.0.2" := {[ py "udp" := {[ py "80" ]} ]} ]}.

Definition sctp_only : scan_result :=
  {[ py "10.0.0.3" := {[ py "sctp" := {[ py "80"; py "8443" ]} ]} ]}.

(** Traceability of an output entry, with [ok] the protocols whose
    ports count. *)
Definition traceable (ok : pystr → Prop) (web_ports : gset pystr)
    (ip_dict : scan_result) (files : amass_files) (x : pystr) : Prop :=
  (∃ protocol, ok protocol ∧ has_port ip_dict x protocol (py "80")) ∨
  (∃ target protocol port, ok protocol ∧ has_port ip_dict target protocol port ∧
     port ∈ web_ports ∧ x = host_port target port) ∨
  (∃ f line, f ∈ files ∧ line ∈ f ∧ x = strip line).

(** Every line of every amass result file, in reading order. *)
Definition all_lines (files : amass_files) : list pystr := mjoin files.

(** The ports listed under a protocol other than [udp]. *)
Definition count_ports_of (protocol_dict : gmap pystr (gset pystr)) : nat :=
  map_fold (λ protocol ports n,
              if decide (protocol = py "udp") then n else (size ports + n)%nat)
           0%nat protocol_dict.

Definition count_ports (ip_dict : scan_result) : nat :=
  map_fold (λ _ protocol_dict n, (count_ports_of protocol_dict + n)%nat)
           0%nat ip_dict.

(** A pickle that is a dict of dicts of sets, whatever the keys, with
    [ok] holding of every element of every set. *)
Definition is_set_of (ok : pykey → bool) (o : pyobj) : bool :=
  match o with PySet l => forallb ok l | _ => false end.

Definition is_dict_of_sets (ok : pykey → bool) (o : pyobj) : bool :=
  match o with
  | PyDict l => forallb (λ kv, is_set_of ok kv.2) l
  | _ => false
  end.

Definition is_dict_of_dicts_of_sets (ok : pykey → bool) (o : pyobj) : bool :=
  match o with
  | PyDict l => forallb (λ kv, is_dict_of_sets ok kv.2) l
  | _ => false
  end.

(** A pickle whose ports are the integers 80 and 8080, not strings. *)
Definition ports_as_int : pyobj :=
  PyDict [ (KStr (py "10.0.0.1"),
            PyDict [ (KStr (py "tcp"), PySet [ KInt 80; KInt 8080 ]) ]) ].

(** * Properties *)

Section Membership.
Variable web_ports : gset pystr.

Lemma elem_of_visit_port target protocol port targets x :
  x ∈ visit_port web_ports target protocol port targets ↔
  x ∈ targets ∨ emits web_ports target protocol port x.
Proof.
  unfold visit_port, emits. repeat case_decide; set_solver.
Qed.

Lemma elem_of_visit_ports target protocol ports targets x :
  x ∈ visit_ports web_ports target protocol ports targets ↔
  x ∈ targets ∨ ∃ port, port ∈ ports ∧ emits web_ports target protocol port x.
Proof.
  unfold visit_ports.
  apply (set_fold_ind_L (λ r X, x ∈ r ↔
    x ∈ targets ∨ ∃ port, port ∈ X ∧ emits web_ports target protocol port x)).
  - set_solver.
  - intros p X r _ IH. rewrite elem_of_visit_port, IH. set_solver.
Qed.

Lemma elem_of_visit_protocols target protocol_dict targets x :
  x ∈ visit_protocols web_ports target protocol_dict targets ↔
  x ∈ targets ∨ ∃ protocol ports port,
    protocol_dict !! protocol = Some ports ∧ port ∈ ports ∧
    emits web_ports target protocol port x.
Proof.
  unfold visit_protocols.
  apply (map_fold_weak_ind (λ r (m : gmap pystr (gset pystr)), x ∈ r ↔
    x ∈ targets ∨ ∃ protocol ports port,
      m !! protocol = Some ports ∧ port ∈ ports ∧
      emits web_ports target protocol port x)).
  - split; [auto|]. intros [?|(? & ? & ? & H & _)]; [done|].
    by rewrite lookup_empty in H.
  - intros pr ports m r Hfresh IH. rewrite elem_of_visit_ports, IH. split.
    + intros [[?|(pr' & ports' & p & Hm & ? & ?)]|(p & ? & ?)]; auto.
      * right. exists pr', ports', p. rewrite lookup_insert_ne; [done|].
        intros ->. congruence.
      * right. exists pr, ports, p. by rewrite lookup_insert_eq.
    + intros [?|(pr' & ports' & p & Hm & ? & ?)]; auto.
      destruct (decide (pr = pr')) as [->|Hne].
      * rewrite lookup_insert_eq in Hm. injection Hm as <-. eauto.
      * rewrite lookup_insert_ne in Hm by done. left. right. eauto 8.
Qed.

Lemma elem_of_scan_loop ip_dict targets x :
  x ∈ scan_loop web_ports ip_dict targets ↔
  x ∈ targets ∨ scan_emits web_ports ip_dict x.
Proof.
  unfold scan_loop, scan_emits, has_port.
  apply (map_fold_weak_ind (λ r (m : scan_result), x ∈ r ↔
    x ∈ targets ∨ ∃ target protocol port,
      (∃ protocol_dict ports, m !! target = Some protocol_dict ∧
         protocol_dict !! protocol = Some ports ∧ port ∈ ports) ∧
      emits web_ports target protocol port x)).
  - split; [auto|]. intros [?|(? & ? & ? & (? & ? & H & _) & _)]; [done|].
    by rewrite lookup_empty in H.
  - intros t pd m r Hfresh IH. rewrite elem_of_visit_protocols, IH. split.
    + intros [[?|(t' & pr & p & (pd' & ports & Hm & ? & ?) & ?)]
             |(pr & ports & p & ? & ? & ?)]; auto.
      * right. exists t', pr, p. split; [|done]. exists pd', ports.
        rewrite lookup_insert_ne; [done|]. intros ->. congruence.
      * right. exists t, pr, p. split; [|done]. exists pd, ports.
        by rewrite lookup_insert_eq.
    + intros [?|(t' & pr & p & (pd' & ports & Hm & ? & ?) & ?)]; auto.
      destruct (decide (t = t')) as [->|Hne].
      * rewrite lookup_insert_eq in Hm. injection Hm as <-. eauto 8.
      * rewrite lookup_insert_ne in Hm by done. left. right.
        exists t', pr, p. eauto 8.
Qed.
End Membership.

Lemma elem_of_read_lines f targets x :
  x ∈ read_lines f targets ↔ x ∈ targets ∨ ∃ line, line ∈ f ∧ x = strip line.
Proof.
  unfold read_lines. revert targets.
  induction f as [|l f IH]; intros targets; simpl.
  - set_solver.
  - rewrite IH. unfold visit_line. set_solver.
Qed.

Lemma elem_of_amass_loop files targets x :
  x ∈ amass_loop files targets ↔ x ∈ targets ∨ amass_emits files x.
Proof.
  unfold amass_loop, amass_emits. revert targets.
  induction files as [|f files IH]; intros targets; simpl.
  - set_solver.
  - rewrite IH, elem_of_read_lines. set_solver.
Qed.

Lemma elem_of_gather web_ports ip_dict files x :
  x ∈ gather web_ports ip_dict files ↔
  scan_emits web_ports ip_dict x ∨ amass_emits files x.
Proof.
  unfold gather. rewrite elem_of_amass_loop, elem_of_scan_loop. set_solver.
Qed.

(** ** Taking entries out of the scan result *)

Lemma has_port_drop_port ip_dict t pr p t' pr' p' :
  has_port (drop_port t pr p ip_dict) t' pr' p' ↔
  has_port ip_dict t' pr' p' ∧ (t', pr', p') ≠ (t, pr, p).
Proof.
  unfold has_port, drop_port. split.
  - intros (pd & ports & Hd & Hp & Hin).
    rewrite lookup_alter in Hd. case_decide as Ht; subst.
    + destruct (ip_dict !! t') as [pd0|] eqn:E; simplify_eq/=.
      rewrite lookup_alter in Hp. case_decide as Hpr; subst.
      * destruct (pd0 !! pr') as [ports0|] eqn:E'; simplify_eq/=.
        apply elem_of_difference in Hin as [? Hne].
        split; [eauto|]. intros [=]. set_solver.
      * split; [eauto|]. congruence.
    + split; [eauto|]. congruence.
  - intros ((pd & ports & Hd & Hp & Hin) & Hne).
    destruct (decide (t = t')) as [->|Ht].
    + destruct (decide (pr = pr')) as [->|Hpr].
      * exists (alter (λ ports, ports ∖ {[ p ]}) pr' pd), (ports ∖ {[ p ]}).
        rewrite !lookup_alter, !decide_True by done. rewrite Hd; simpl.
        rewrite Hp. split_and!; [done..|].
        apply elem_of_difference. split; [done|].
        intros ->%elem_of_singleton. done.
      * exists (alter (λ ports, ports ∖ {[ p ]}) pr pd), ports.
        rewrite lookup_alter, decide_True by done. rewrite Hd; simpl.
        rewrite lookup_alter, decide_False by done. done.
    + exists pd, ports. rewrite lookup_alter, decide_False by done. done.
Qed.

Lemma scan_emits_drop_port web_ports ip_dict t pr p x :
  has_port ip_dict t pr p →
  scan_emits web_ports ip_dict x ↔
  emits web_ports t pr p x ∨ scan_emits web_ports (drop_port t pr p ip_dict) x.
Proof.
  intros Hin. unfold scan_emits. split.
  - intros (t' & pr' & p' & Hp & He).
    destruct (decide ((t', pr', p') = (t, pr, p))) as [[= -> -> ->]|Hne].
    + by left.
    + right. exists t', pr', p'. by rewrite has_port_drop_port.
  - intros [He|(t' & pr' & p' & Hp & He)]; [eauto|].
    apply has_port_drop_port in Hp as [Hp _]. eauto.
Qed.

Lemma gather_drop_port web_ports ip_dict files t pr p :
  has_port ip_dict t pr p →
  gather web_ports ip_dict files =
  visit_port web_ports t pr p (gather web_ports (drop_port t pr p ip_dict) files).
Proof.
  intros Hin. apply set_eq. intros x.
  rewrite elem_of_visit_port, !elem_of_gather.
  rewrite (scan_emits_drop_port _ _ _ _ _ _ Hin). tauto.
Qed.

Lemma has_port_drop_udp ip_dict t pr p :
  has_port (drop_udp ip_dict) t pr p ↔
  has_port ip_dict t pr p ∧ pr ≠ py "udp".
Proof.
  unfold has_port, drop_udp. split.
  - intros (pd & ports & Hd & Hp & Hin).
    rewrite lookup_fmap in Hd.
    destruct (ip_dict !! t) as [pd0|] eqn:E; simplify_eq/=.
    rewrite lookup_delete in Hp. case_decide; [done|].
    split; [eauto|]. congruence.
  - intros ((pd & ports & Hd & Hp & Hin) & Hne).
    exists (delete (py "udp") pd), ports.
    rewrite lookup_fmap, Hd; simpl.
    rewrite lookup_delete_ne by done. done.
Qed.

Lemma scan_emits_drop_udp web_ports ip_dict x :
  scan_emits web_ports (drop_udp ip_dict) x ↔ scan_emits web_ports ip_dict x.
Proof.
  unfold scan_emits. split.
  - intros (t & pr & p & [Hp _]%has_port_drop_udp & He). eauto.
  - intros (t & pr & p & Hp & He). exists t, pr, p.
    rewrite has_port_drop_udp. destruct He as [? ?]. done.
Qed.

(** ** Strings *)

Lemma host_port_cons target port :
  host_port target port = target ++ 58 :: port.
Proof. reflexivity. Qed.

Lemma host_port_ne_bare target port : host_port target port ≠ target.
Proof.
  rewrite host_port_cons. intros H. apply (f_equal length) in H.
  rewrite length_app in H. simpl in H. lia.
Qed.

Lemma app_cons_inj {A} (x : A) (l1 l2 k1 k2 : list A) :
  x ∉ l2 → x ∉ k2 → l1 ++ x :: l2 = k1 ++ x :: k2 → l1 = k1 ∧ l2 = k2.
Proof.
  intros Hl Hk. revert k1.
  induction l1 as [|a l1 IH]; intros [|b k1]; simpl; intros H.
  - by injection H as ->.
  - injection H as -> ->. exfalso. apply Hl. set_solver.
  - injection H as -> <-. exfalso. apply Hk. set_solver.
  - injection H as -> H. by destruct (IH _ H) as [-> ->].
Qed.

(** The port of a composite entry is what follows its last colon. *)
Lemma host_port_inj target port target' port' :
  58 ∉ port → 58 ∉ port' →
  host_port target port = host_port target' port' →
  target = target' ∧ port = port'.
Proof. rewrite !host_port_cons. apply app_cons_inj. Qed.

Lemma no_colon_80 : 58 ∉ py "80".
Proof.
  change (58 ∉ [56; 48]). rewrite !not_elem_of_cons.
  split_and!; [done..|]. apply not_elem_of_nil.
Qed.

#[global] Instance line_of_inj : Inj (=) (=) line_of.
Proof.
  intros x y H. unfold line_of in H. by apply app_inj_tail in H as [? _].
Qed.

Lemma lstrip_whitespace s : Forall (λ c, isspace c = true) s → lstrip s = [].
Proof. induction 1 as [|c s Hc _ IH]; simpl; [done|]. by rewrite Hc. Qed.

Lemma strip_whitespace s : Forall (λ c, isspace c = true) s → strip s = [].
Proof. intros H. unfold strip. by rewrite (lstrip_whitespace _ H). Qed.

(** ** The written file *)

Lemma NoDup_write_targets targets : NoDup (write_targets targets).
Proof.
  unfold write_targets. apply (NoDup_fmap_2 line_of), NoDup_elements.
Qed.

Lemma elem_of_write_targets targets x :
  line_of x ∈ write_targets targets ↔ x ∈ targets.
Proof.
  unfold write_targets.
  rewrite (list_elem_of_fmap_inj line_of). apply elem_of_elements.
Qed.

Lemma filter_eq_not_elem_of {A} `{EqDecision A} (l : list A) (y : A) :
  y ∉ l → filter (λ z, z = y) l = [].
Proof.
  induction l as [|z l IH]; intros Hy; [done|].
  apply not_elem_of_cons in Hy as [Hne Hy].
  rewrite filter_cons, decide_False by done. auto.
Qed.

Lemma NoDup_filter_eq_length {A} `{EqDecision A} (l : list A) (y : A) :
  NoDup l → y ∈ l → length (filter (λ z, z = y) l) = 1%nat.
Proof.
  induction 1 as [|z l Hz Hnd IH]; intros Hy.
  - by apply not_elem_of_nil in Hy.
  - rewrite filter_cons. case_decide as Hzy.
    + subst z. simpl. by rewrite filter_eq_not_elem_of.
    + apply elem_of_cons in Hy as [->|Hy]; [done|]. auto.
Qed.

Lemma occurrences_write_targets_0 targets x :
  x ∉ targets → occurrences x (write_targets targets) = 0%nat.
Proof.
  intros Hx. unfold occurrences. rewrite filter_eq_not_elem_of; [done|].
  by rewrite elem_of_write_targets.
Qed.

Lemma occurrences_write_targets targets x :
  x ∈ targets → occurrences x (write_targets targets) = 1%nat.
Proof.
  intros Hx. unfold occurrences. apply NoDup_filter_eq_length.
  - apply NoDup_write_targets.
  - by apply elem_of_write_targets.
Qed.

(** ** The scenario *)

(** C1 (as stated, refuted): for the scenario's input the set of entries
    is not the three-element set; the whitespace-only line leaves the
    empty string in it and a blank line in the file. *)
Lemma C1_three_entries_refuted :
  gather {[ py "8080" ]} scenario1 subdomains1 ≠
    {[ py "10.0.0.1"; py "10.0.0.1:8080"; py "sub.example.com" ]}
  ∧ line_of [] ∈ run {[ py "8080" ]} scenario1 subdomains1.
Proof.
  split.
  - vm_compute. discriminate.
  - vm_compute. set_solver.
Qed.

(** C1 (amended): for the scenario's input the set of entries is the
    three named entries together with the empty string, and the file
    consists of the four corresponding lines. *)
Theorem C1_scenario :
  gather {[ py "8080" ]} scenario1 subdomains1 =
    {[ py "10.0.0.1"; py "10.0.0.1:8080"; py "sub.example.com"; [] ]}
  ∧ run {[ py "8080" ]} scenario1 subdomains1 ≡ₚ
    [ line_of (py "10.0.0.1"); line_of (py "10.0.0.1:8080");
      line_of (py "sub.example.com"); line_of [] ].
Proof.
  split.
  - vm_compute. reflexivity.
  - vm_compute. solve_Permutation.
Qed.

(** ** Whitespace-only lines *)

(** C2 (as stated, refuted): a file whose only line is a single space
    does contribute an entry, the empty string, and the output has a
    line for it. *)
Lemma C2_blank_line_refuted :
  gather ∅ ∅ [[ py " " ]] ≠ gather ∅ ∅ [[]]
  ∧ run ∅ ∅ [[ py " " ]] = [ line_of [] ].
Proof.
  split.
  - vm_compute. discriminate.
  - vm_compute. reflexivity.
Qed.

(** C2 (amended): a line that is empty or consists only of whitespace
    adds exactly one entry, the empty string; it is in the set of
    entries, and its line in the file, whenever some file has such a
    line. *)
Theorem C2_blank_line_adds_empty_entry (line : pystr) :
  Forall (λ c, isspace c = true) line →
  (∀ targets, visit_line line targets = {[ [] ]} ∪ targets)
  ∧ (∀ web_ports ip_dict files f,
       f ∈ files → line ∈ f →
       [] ∈ gather web_ports ip_dict files
       ∧ occurrences [] (run web_ports ip_dict files) = 1%nat).
Proof.
  intros Hws. split.
  - intros targets. unfold visit_line. by rewrite strip_whitespace.
  - intros web_ports ip_dict files f Hf Hl.
    assert ([] ∈ gather web_ports ip_dict files) as Hin.
    { apply elem_of_gather. right. exists f, line.
      by rewrite strip_whitespace. }
    split; [done|]. by apply occurrences_write_targets.
Qed.

Lemma C2_blank_line_witness :
  Forall (λ c, isspace c = true) [32; 9; 10] ∧
  visit_line [32; 9; 10] {[ py "a.example.com" ]} = {[ []; py "a.example.com" ]}.
Proof.
  assert (Forall (λ c, isspace c = true) [32; 9; 10]) as H.
  { repeat constructor. }
  split; [exact H|].
  rewrite (proj1 (C2_blank_line_adds_empty_entry _ H)). set_solver.
Defined.

(** ** UDP *)

(** C3: a triple whose protocol is [udp] adds nothing, whatever its port:
    its visit leaves [targets] as it was; the entries, and the file, are
    those of the scan result with every [udp] entry taken out; a host
    with only UDP ports adds nothing; and UDP port 80 with an empty
    policy and no subdomains gives an empty file. *)
Theorem C3_udp_excluded (web_ports : gset pystr) :
  (∀ target port targets,
     visit_port web_ports target (py "udp") port targets = targets)
  ∧ (∀ ip_dict files,
       gather web_ports ip_dict files = gather web_ports (drop_udp ip_dict) files
       ∧ run web_ports ip_dict files = run web_ports (drop_udp ip_dict) files)
  ∧ (∀ target ports targets,
       scan_loop web_ports {[ target := {[ py "udp" := ports ]} ]} targets = targets)
  ∧ run ∅ scenario2 [] = [].
Proof.
  assert (∀ ip_dict files,
    gather web_ports ip_dict files = gather web_ports (drop_udp ip_dict) files)
    as Hdrop.
  { intros ip_dict files. apply set_eq. intros x.
    by rewrite !elem_of_gather, scan_emits_drop_udp. }
  split_and!.
  - intros target port targets. unfold visit_port. by rewrite decide_True.
  - intros ip_dict files. unfold run. by rewrite <- Hdrop.
  - intros target ports targets. apply set_eq. intros x.
    rewrite elem_of_scan_loop. split; [|auto].
    intros [?|(t & pr & p & (pd & ps & Hd & Hp & _) & [Hne _])]; [done|].
    apply lookup_singleton_Some in Hd as [_ <-].
    apply lookup_singleton_Some in Hp as [<- _]. done.
  - vm_compute. reflexivity.
Qed.

(** ** Port 80 and the policy ports *)

Lemma elem_of_gather_port_80 web_ports ip_dict files host protocol :
  protocol ≠ py "udp" →
  has_port ip_dict host protocol (py "80") →
  host ∈ gather web_ports ip_dict files.
Proof.
  intros Hne Hp. apply elem_of_gather. left.
  exists host, protocol, (py "80"). split; [done|]. split; [done|]. by left.
Qed.

Lemma elem_of_gather_policy_port web_ports ip_dict files host protocol port :
  protocol ≠ py "udp" → port ≠ py "80" → port ∈ web_ports →
  has_port ip_dict host protocol port →
  host_port host port ∈ gather web_ports ip_dict files.
Proof.
  intros Hne H80 Hw Hp. apply elem_of_gather. left.
  exists host, protocol, port. split; [done|]. split; [done|]. by right.
Qed.

(** When ports have no colon, no scanned host is named [host:port] and no
    subdomain line reads [host:port], that string is among the entries
    only as the composite of [host] and [port]. *)
Lemma elem_of_gather_host_port (web_ports : gset pystr) (ip_dict : scan_result)
    (files : amass_files) (host port : pystr) :
  58 ∉ port → (∀ p, p ∈ web_ports → 58 ∉ p) →
  ip_dict !! host_port host port = None →
  (∀ f line, f ∈ files → line ∈ f → strip line ≠ host_port host port) →
  host_port host port ∈ gather web_ports ip_dict files ↔
  port ≠ py "80" ∧ port ∈ web_ports ∧
  ∃ protocol, protocol ≠ py "udp" ∧ has_port ip_dict host protocol port.
Proof.
  intros Hport Hpolicy Hhost Hlines. rewrite elem_of_gather. split.
  - intros [(t & pr & p & Hp & Hne & He)|(f & line & Hf & Hl & Heq)].
    + destruct He as [[-> Heq]|(H80 & Hw & Heq)].
      * destruct Hp as (pd & ? & Hd & _). congruence.
      * apply host_port_inj in Heq as [-> ->]; eauto.
    + exfalso. by eapply Hlines.
  - intros (H80 & Hw & pr & Hne & Hp). left.
    exists host, pr, port. split; [done|]. split; [done|]. by right.
Qed.

(** C4: a host with TCP port 80 open has its bare identifier among the
    entries and on one line of the file, whatever the policy (also when
    it contains 80); that triple adds the bare identifier and nothing
    else.  The composite [host:80] is not among the entries and not in
    the file, given only that no other input reads [host:80] literally:
    policy ports have no colon, no scanned host is named so and no
    subdomain line reads so. *)
Theorem C4_port_80_rule (web_ports : gset pystr) (ip_dict : scan_result)
    (files : amass_files) (host : pystr) :
  has_port ip_dict host (py "tcp") (py "80") →
  host ∈ gather web_ports ip_dict files
  ∧ occurrences host (run web_ports ip_dict files) = 1%nat
  ∧ (∀ targets,
       visit_port web_ports host (py "tcp") (py "80") targets = {[ host ]} ∪ targets)
  ∧ gather web_ports ip_dict files =
      {[ host ]} ∪
      gather web_ports (drop_port host (py "tcp") (py "80") ip_dict) files
  ∧ ((∀ p, p ∈ web_ports → 58 ∉ p) →
     ip_dict !! host_port host (py "80") = None →
     (∀ f line, f ∈ files → line ∈ f → strip line ≠ host_port host (py "80")) →
     (host_port host (py "80") ∉ gather web_ports ip_dict files)
     ∧ occurrences (host_port host (py "80")) (run web_ports ip_dict files)
       = 0%nat).
Proof.
  intros Hp.
  assert (∀ targets,
    visit_port web_ports host (py "tcp") (py "80") targets = {[ host ]} ∪ targets)
    as Hvisit.
  { intros targets. unfold visit_port.
    rewrite decide_False by (by vm_compute). by rewrite decide_True. }
  pose proof (gather_drop_port web_ports ip_dict files _ _ _ Hp) as Heq.
  rewrite Hvisit in Heq.
  assert (host ∈ gather web_ports ip_dict files) as Hin.
  { rewrite Heq. set_solver. }
  split_and!; [done| |done|done|].
  - by apply occurrences_write_targets.
  - intros Hpolicy Hhost Hlines.
    assert (host_port host (py "80") ∉ gather web_ports ip_dict files) as Hnot.
    { rewrite elem_of_gather_host_port; [|apply no_colon_80|done..].
      intros [H80 _]. done. }
    split; [done|]. by apply occurrences_write_targets_0.
Qed.

Lemma C4_port_80_witness :
  has_port {[ py "h" := {[ py "tcp" := {[ py "80" ]} ]} ]}
    (py "h") (py "tcp") (py "80")
  ∧ py "h" ∈ gather {[ py "80" ]}
      {[ py "h" := {[ py "tcp" := {[ py "80" ]} ]} ]} [].
Proof.
  assert (has_port {[ py "h" := {[ py "tcp" := {[ py "80" ]} ]} ]}
            (py "h") (py "tcp") (py "80")) as H.
  { eexists _, _. split_and!; [apply lookup_singleton_eq..|set_solver]. }
  split; [exact H|].
  exact (proj1 (C4_port_80_rule {[ py "80" ]} _ [] _ H)).
Defined.

(** C5: for a host with TCP port [P] open, [P] other than 80, the triple
    adds the composite [host:P] when [P] is in the policy and nothing
    otherwise.  So [host:P] is among the entries, on one line of the
    file, when [P] is in the policy; and only then, given that no other
    input reads [host:P] literally: ports have no colon, no scanned host
    is named so and no subdomain line reads so.  A host that also has
    TCP port 80 open and whose [P] is in the policy has both its bare
    and its composite entry, and they differ. *)
Theorem C5_policy_port_rule (web_ports : gset pystr) (ip_dict : scan_result)
    (files : amass_files) (host P : pystr) :
  has_port ip_dict host (py "tcp") P → P ≠ py "80" →
  gather web_ports ip_dict files =
    (if decide (P ∈ web_ports) then {[ host_port host P ]} else ∅) ∪
    gather web_ports (drop_port host (py "tcp") P ip_dict) files
  ∧ (P ∈ web_ports →
     host_port host P ∈ gather web_ports ip_dict files
     ∧ occurrences (host_port host P) (run web_ports ip_dict files) = 1%nat)
  ∧ (58 ∉ P → (∀ p, p ∈ web_ports → 58 ∉ p) →
     ip_dict !! host_port host P = None →
     (∀ f line, f ∈ files → line ∈ f → strip line ≠ host_port host P) →
     (host_port host P ∈ gather web_ports ip_dict files ↔ P ∈ web_ports))
  ∧ (has_port ip_dict host (py "tcp") (py "80") → P ∈ web_ports →
     host ∈ gather web_ports ip_dict files
     ∧ host_port host P ∈ gather web_ports ip_dict files
     ∧ host ≠ host_port host P).
Proof.
  intros Hp H80.
  pose proof (gather_drop_port web_ports ip_dict files _ _ _ Hp) as Heq.
  unfold visit_port in Heq.
  rewrite decide_False in Heq by (by vm_compute).
  rewrite decide_False in Heq by done.
  assert (P ∈ web_ports → host_port host P ∈ gather web_ports ip_dict files)
    as Hin.
  { intros HP. by apply (elem_of_gather_policy_port _ _ _ _ (py "tcp")). }
  split_and!.
  - rewrite Heq. case_decide; set_solver.
  - intros HP. split; [auto|]. by apply occurrences_write_targets, Hin.
  - intros HPc Hpolicy Hhost Hlines.
    rewrite elem_of_gather_host_port by done. split; [tauto|].
    intros HP. split_and!; [done..|]. exists (py "tcp"). by vm_compute.
  - intros Hp80 HP. split_and!; [|auto|].
    + by apply (elem_of_gather_port_80 _ _ _ _ (py "tcp")).
    + intros Habs. by apply (host_port_ne_bare host P).
Qed.

Lemma C5_policy_port_witness :
  has_port scenario1 (py "10.0.0.1") (py "tcp") (py "8080")
  ∧ py "8080" ≠ py "80"
  ∧ host_port (py "10.0.0.1") (py "8080") ∈
      gather {[ py "8080" ]} scenario1 subdomains1.
Proof.
  assert (has_port scenario1 (py "10.0.0.1") (py "tcp") (py "8080")) as H.
  { eexists _, _. split_and!; [apply lookup_singleton_eq| |].
    - by vm_compute.
    - set_solver. }
  assert (py "8080" ≠ py "80") as Hne by (by vm_compute).
  split_and!; [exact H|exact Hne|].
  apply (proj1 (proj2
    (C5_policy_port_rule {[ py "8080" ]} scenario1 subdomains1 _ _ H Hne))).
  by apply elem_of_singleton.
Defined.

(** ** De-duplication *)

(** C6: the file never has the same line twice; every subdomain line,
    however often it occurs in the files, and every entry a scan triple
    adds, however many triples add it and whether or not a subdomain
    line reads the same, has exactly one line in the file. *)
Theorem C6_no_duplicates (web_ports : gset pystr) (ip_dict : scan_result)
    (files : amass_files) :
  NoDup (run web_ports ip_dict files)
  ∧ (∀ f line, f ∈ files → line ∈ f →
       occurrences (strip line) (run web_ports ip_dict files) = 1%nat)
  ∧ (∀ target protocol port x,
       has_port ip_dict target protocol port →
       emits web_ports target protocol port x →
       occurrences x (run web_ports ip_dict files) = 1%nat).
Proof.
  split_and!.
  - apply NoDup_write_targets.
  - intros f line Hf Hl. apply occurrences_write_targets, elem_of_gather.
    right. by exists f, line.
  - intros t pr p x Hp He. apply occurrences_write_targets, elem_of_gather.
    left. by exists t, pr, p.
Qed.

(** The same name from both sources, twice in one file and once more in
    another: one line. *)
Lemma C6_no_duplicates_witness :
  run ∅ {[ py "a.example.com" := {[ py "tcp" := {[ py "80" ]} ]} ]}
    [[ py "a.example.com"; py "a.example.com" ]; [ py "a.example.com" ]]
  = [ line_of (py "a.example.com") ]
  ∧ occurrences (strip (py "a.example.com"))
      (run ∅ {[ py "a.example.com" := {[ py "tcp" := {[ py "80" ]} ]} ]}
         [[ py "a.example.com"; py "a.example.com" ]; [ py "a.example.com" ]])
    = 1%nat.
Proof.
  split; [by vm_compute|].
  apply (proj1 (proj2 (C6_no_duplicates ∅ _ _))
           [ py "a.example.com"; py "a.example.com" ] (py "a.example.com"));
    set_solver.
Defined.

(** ** Traceability *)

Lemma traceable_mono (ok ok' : pystr → Prop) web_ports ip_dict files x :
  (∀ target protocol port,
     has_port ip_dict target protocol port → ok protocol → ok' protocol) →
  traceable ok web_ports ip_dict files x →
  traceable ok' web_ports ip_dict files x.
Proof.
  intros Hok [(pr & ? & ?)|[(t & pr & p & ? & ? & ? & ?)|?]].
  - left. eauto.
  - right. left. exists t, pr, p. eauto.
  - right. by right.
Qed.

Lemma gather_traceable web_ports ip_dict files x :
  x ∈ gather web_ports ip_dict files →
  traceable (λ protocol, protocol ≠ py "udp") web_ports ip_dict files x.
Proof.
  intros [(t & pr & p & Hp & Hne & He)|Ha]%elem_of_gather.
  - destruct He as [[-> ->]|(_ & Hw & ->)].
    + left. eauto.
    + right. left. exists t, pr, p. eauto.
  - right. by right.
Qed.

(** C7 (as stated, refuted): with port 80 listed under [sctp] the host is
    written, yet it has no TCP port at all and there is no subdomain
    line. *)
Lemma C7_tcp_traceable_refuted :
  line_of (py "10.0.0.3") ∈ run ∅ sctp_only []
  ∧ ¬ traceable (λ protocol, protocol = py "tcp") ∅ sctp_only [] (py "10.0.0.3").
Proof.
  split.
  - vm_compute. set_solver.
  - intros [(pr & -> & Hp)|[(t & pr & p & _ & _ & Hw & _)|(f & l & Hf & _)]].
    + destruct Hp as (pd & ports & Hd & Hpr & _). unfold sctp_only in Hd.
      apply lookup_singleton_Some in Hd as [_ <-].
      apply lookup_singleton_Some in Hpr as [Habs _]. by vm_compute in Habs.
    + set_solver.
    + set_solver.
Qed.

(** C7 (amended): every line of the file is the line of an entry that is
    traceable to (a) a host with port 80 open under a protocol other than
    [udp], (b) a host with a policy port open under a protocol other than
    [udp], or (c) a line of a subdomain file; when the scan result lists
    no protocol besides [tcp] and [udp], that protocol is TCP. *)
Theorem C7_traceable (web_ports : gset pystr) (ip_dict : scan_result)
    (files : amass_files) (l : pystr) :
  l ∈ run web_ports ip_dict files →
  ∃ x, l = line_of x
    ∧ traceable (λ protocol, protocol ≠ py "udp") web_ports ip_dict files x
    ∧ ((∀ target protocol port, has_port ip_dict target protocol port →
          protocol = py "tcp" ∨ protocol = py "udp") →
       traceable (λ protocol, protocol = py "tcp") web_ports ip_dict files x).
Proof.
  intros Hl. unfold run, write_targets in Hl.
  apply list_elem_of_fmap in Hl as (x & -> & Hx%elem_of_elements).
  exists x. pose proof (gather_traceable _ _ _ _ Hx) as Ht.
  split_and!; [done|done|].
  intros Honly. eapply traceable_mono; [|exact Ht].
  simpl. intros t pr p Hp Hne. destruct (Honly _ _ _ Hp); done.
Qed.

Lemma C7_traceable_witness :
  line_of (py "10.0.0.3") ∈ run ∅ sctp_only []
  ∧ ∃ x, line_of (py "10.0.0.3") = line_of x
      ∧ traceable (λ protocol, protocol ≠ py "udp") ∅ sctp_only [] x.
Proof.
  assert (line_of (py "10.0.0.3") ∈ run ∅ sctp_only []) as H.
  { vm_compute. set_solver. }
  split; [exact H|].
  destruct (C7_traceable ∅ sctp_only [] _ H) as (x & Hx & Ht & _).
  by exists x.
Defined.

(** ** Order of the two sources *)

(** C8: running the subdomain loop first and the scan loop second leaves
    the same set of entries, and so the same file, as the order of the
    source. *)
Theorem C8_sources_commute (web_ports : gset pystr) (ip_dict : scan_result)
    (files : amass_files) :
  gather_swapped web_ports ip_dict files = gather web_ports ip_dict files
  ∧ write_targets (gather_swapped web_ports ip_dict files) =
    run web_ports ip_dict files.
Proof.
  assert (gather_swapped web_ports ip_dict files = gather web_ports ip_dict files)
    as Heq.
  { apply set_eq. intros x. unfold gather_swapped.
    rewrite elem_of_gather, elem_of_scan_loop, elem_of_amass_loop. set_solver. }
  split; [done|]. unfold run. by rewrite Heq.
Qed.

(** ** Protocols other than TCP and UDP *)

(** C10: only the key ["udp"] is skipped.  Under any other protocol a
    port is visited exactly as under ["tcp"]: port 80 puts the bare host
    among the entries, a policy port [P] other than 80 puts [host:P]
    there. *)
Theorem C10_only_udp_skipped (web_ports : gset pystr) (protocol : pystr) :
  protocol ≠ py "udp" →
  (∀ target port targets,
     visit_port web_ports target protocol port targets =
     visit_port web_ports target (py "tcp") port targets)
  ∧ (∀ ip_dict files host,
       has_port ip_dict host protocol (py "80") →
       host ∈ gather web_ports ip_dict files)
  ∧ (∀ ip_dict files host P,
       has_port ip_dict host protocol P → P ≠ py "80" → P ∈ web_ports →
       host_port host P ∈ gather web_ports ip_dict files).
Proof.
  intros Hne. split_and!.
  - intros target port targets. unfold visit_port.
    rewrite (decide_False (P := protocol = py "udp")) by done.
    by rewrite (decide_False (P := py "tcp" = py "udp")) by (by vm_compute).
  - intros ip_dict files host Hp. by eapply elem_of_gather_port_80.
  - intros ip_dict files host P Hp H80 Hw.
    by eapply elem_of_gather_policy_port.
Qed.

Lemma C10_only_udp_skipped_witness :
  py "sctp" ≠ py "udp"
  ∧ gather {[ py "8443" ]} sctp_only [] =
      {[ py "10.0.0.3"; py "10.0.0.3:8443" ]}
  ∧ py "10.0.0.3" ∈ gather {[ py "8443" ]} sctp_only [].
Proof.
  assert (py "sctp" ≠ py "udp") as Hne by (by vm_compute).
  split_and!; [exact Hne|by vm_compute|].
  apply (proj1 (proj2 (C10_only_udp_skipped {[ py "8443" ]} _ Hne))
           sctp_only [] (py "10.0.0.3")).
  eexists _, _. split_and!; [apply lookup_singleton_eq..|]. set_solver.
Defined.

(** ** Failure *)



Lemma iter_raise o cls : iter o = Raise cls → cls = "TypeError".
Proof. destruct o as [[]| | |]; simpl; congruence. Qed.





(** *** Exactly when a loop raises *)

Lemma for_each_raise_iff {A S} (bad : A → Prop) (body : A → S → result S)
    (l : list A) (s : S) :
  (∀ x s, (∃ cls, body x s = Raise cls) ↔ bad x) →
  (∃ cls, for_each body l s = Raise cls) ↔ ∃ x, x ∈ l ∧ bad x.
Proof.
  intros Hbody. revert s. induction l as [|x l IH]; intros s; simpl.
  - split; [by intros [? ?]|]. intros (x & Hx & _). by apply not_elem_of_nil in Hx.
  - destruct (body x s) as [s'|c] eqn:E; simpl.
    + rewrite IH. split.
      * intros (y & Hy & ?). exists y. split; [by right|done].
      * intros (y & [->|Hy]%elem_of_cons & Hbad); [|eauto].
        apply Hbody with (s := s) in Hbad as [cls Hcls]. congruence.
    + split; [|eauto]. intros _. exists x. split; [by left|].
      apply (Hbody x s). eauto.
Qed.








Lemma elem_of_lines_py (o : set_order) (targets : gset pykey) (line : pystr) :
  line ∈ lines_py o targets ↔ ∃ k, k ∈ targets ∧ line = line_of (str k).
Proof.
  unfold lines_py. rewrite list_elem_of_fmap.
  split; intros (k & ? & Hk); exists k.
  - split; [|done]. by rewrite <- elem_of_elements, <- (iterate_perm o).
  - split; [done|]. by rewrite (iterate_perm o), elem_of_elements.
Qed.

Lemma write_targets_py_fails (env : environment) (targets : gset pykey) :
  (∃ cls, write_targets_py env targets = Raise cls) ↔
  (∃ cls, opened env = Raise cls)
  ∨ (∃ k cls, k ∈ targets ∧ written env (line_of (str k)) = Raise cls)
  ∨ (∃ cls, closed env = Raise cls).
Proof.
  unfold write_targets_py.
  destruct (opened env) as [[]|c]; simpl.
  2: { split; eauto. }
  pose proof (for_each_raise_iff (S := ())
    (λ line, ∃ cls, written env line = Raise cls)
    (λ line _, written env line) (lines_py (order env) targets) ()) as Hw.
  destruct (for_each _ _ _) as [[]|c] eqn:E; simpl.
  - assert (¬ ∃ k cls, k ∈ targets ∧ written env (line_of (str k)) = Raise cls)
      as Hnone.
    { intros (k & cls & Hk & Hcls).
      destruct (proj2 (Hw (λ _ _, reflexivity _))) as [? ?]; [|done].
      exists (line_of (str k)). split; [|eauto].
      apply elem_of_lines_py. eauto. }
    destruct (closed env) as [[]|c]; simpl.
    + split; [by intros [? ?]|]. intros [[? ?]|[?|[? ?]]]; done.
    + split; eauto.
  - split; [|eauto]. intros _. right. left.
    destruct (proj1 (Hw (λ _ _, reflexivity _))) as (line & Hl & cls & Hcls);
      [eauto|].
    apply elem_of_lines_py in Hl as (k & Hk & ->). eauto.
Qed.




(** ** The two models agree on a pickle of the documented shape *)

Lemma for_each_app {A S} (body : A → S → result S) l1 l2 s :
  for_each body (l1 ++ l2) s = s' ← for_each body l1 s; for_each body l2 s'.
Proof.
  revert s. induction l1 as [|x l1 IH]; intros s; simpl; [done|].
  destruct (body x s); simpl; [apply IH|done].
Qed.

Lemma for_each_reverse_foldr {A B S S'} (emb : S → S') (f : A → B)
    (body : B → S' → result S') (g : A → S → S) l s :
  (∀ x s, body (f x) (emb s) = Ok (emb (g x s))) →
  for_each body (f <$> reverse l) (emb s) = Ok (emb (foldr g s l)).
Proof.
  intros Hbody. induction l as [|x l IH]; simpl; [done|].
  rewrite reverse_cons, fmap_app, for_each_app, IH. simpl.
  rewrite Hbody. done.
Qed.

Lemma forallb_fmap {A B} (f : A → B) (P : B → bool) (l : list A) :
  (∀ x, P (f x) = true) → forallb P (f <$> l) = true.
Proof. intros H. induction l as [|x l IH]; simpl; [done|]. by rewrite H. Qed.

#[global] Instance KStr_inj : Inj (=) (=) KStr.
Proof. by intros x y [=]. Qed.

Section Agreement.
Variable web_ports : gset pystr.

Lemma visit_port_py_str (t pr p : pystr) (targets : gset pystr) :
  visit_port_py web_ports (KStr t) (KStr pr) (PyKey (KStr p))
    (set_map KStr targets) =
  Ok (set_map KStr (visit_port web_ports t pr p targets)).
Proof.
  unfold visit_port_py, visit_port.
  destruct (decide (pr = py "udp")) as [->|Hne].
  - by rewrite decide_True.
  - rewrite decide_False by congruence.
    repeat case_decide; try done;
      by rewrite set_map_union_L, set_map_singleton_L.
Qed.

Lemma visit_ports_py_str (t pr : pystr) (ports targets : gset pystr) :
  visit_ports_py web_ports (KStr t) (KStr pr) (ports_to_py ports)
    (set_map KStr targets) =
  Ok (set_map KStr (visit_ports web_ports t pr ports targets)).
Proof.
  unfold visit_ports_py, ports_to_py, visit_ports, set_fold. simpl.
  rewrite <- list_fmap_compose.
  apply (for_each_reverse_foldr (set_map KStr) (PyKey ∘ KStr)).
  intros p s. apply visit_port_py_str.
Qed.

Lemma visit_protocols_py_str (t : pystr)
    (protocol_dict : gmap pystr (gset pystr)) (targets : gset pystr) :
  visit_protocols_py web_ports (KStr t) (protocols_to_py protocol_dict)
    (set_map KStr targets) =
  Ok (set_map KStr (visit_protocols web_ports t protocol_dict targets)).
Proof.
  unfold visit_protocols_py, protocols_to_py, visit_protocols. simpl.
  rewrite map_fold_foldr.
  apply (for_each_reverse_foldr (set_map KStr)
           (λ kv, (KStr kv.1, ports_to_py kv.2))
           (λ kv, visit_ports_py web_ports (KStr t) kv.1 kv.2)).
  intros [pr ports] s. apply visit_ports_py_str.
Qed.

Lemma scan_loop_py_str (ip_dict : scan_result) (targets : gset pystr) :
  scan_loop_py web_ports (scan_to_py ip_dict) (set_map KStr targets) =
  Ok (set_map KStr (scan_loop web_ports ip_dict targets)).
Proof.
  unfold scan_loop_py, scan_to_py, scan_loop. simpl.
  rewrite map_fold_foldr.
  apply (for_each_reverse_foldr (set_map KStr)
           (λ kv, (KStr kv.1, protocols_to_py kv.2))
           (λ kv, visit_protocols_py web_ports kv.1 kv.2)).
  intros [t pd] s. apply visit_protocols_py_str.
Qed.

Lemma read_file_py_str (lines : list pystr) (targets : gset pystr) :
  read_file_py (Ok lines) (set_map KStr targets) =
  Ok (set_map KStr (read_lines lines targets)).
Proof.
  unfold read_file_py, read_lines. simpl. f_equal. revert targets.
  induction lines as [|l lines IH]; intros targets; simpl; [done|].
  rewrite <- IH. unfold visit_line.
  by rewrite set_map_union_L, set_map_singleton_L.
Qed.

Lemma amass_loop_py_str (files : amass_files) (targets : gset pystr) :
  amass_loop_py (Ok <$> files) (set_map KStr targets) =
  Ok (set_map KStr (amass_loop files targets)).
Proof.
  unfold amass_loop_py, amass_loop. revert targets.
  induction files as [|f files IH]; intros targets; [done|].
  rewrite fmap_cons. cbn [for_each]. rewrite read_file_py_str. apply IH.
Qed.

Lemma lines_py_str (o : set_order) (targets : gset pystr) :
  lines_py o (set_map KStr targets) ≡ₚ write_targets targets.
Proof.
  unfold lines_py, write_targets. rewrite (iterate_perm o).
  unfold set_map. rewrite elements_list_to_set.
  - by rewrite <- list_fmap_compose.
  - apply (NoDup_fmap_2 KStr), NoDup_elements.
Qed.

Lemma is_scan_result_scan_to_py (ip_dict : scan_result) :
  is_scan_result (scan_to_py ip_dict) = true.
Proof.
  unfold scan_to_py, is_scan_result. apply forallb_fmap. intros kv. simpl.
  unfold protocols_to_py, is_protocol_dict. apply forallb_fmap. intros kv'.
  simpl. unfold ports_to_py, is_port_set. by apply forallb_fmap.
Qed.

(** On the pickle of a scan result and readable amass files, reading
    raises nothing and leaves the entries of [gather]. *)
Lemma gather_py_scan_result (ip_dict : scan_result) (files : amass_files) :
  gather_py web_ports (Ok (scan_to_py ip_dict)) (Ok <$> files) =
  Ok (set_map KStr (gather web_ports ip_dict files)).
Proof.
  unfold gather_py, gather. simpl.
  rewrite <- (set_map_empty (C := gset pystr) (D := gset pykey) KStr).
  rewrite scan_loop_py_str. simpl. apply amass_loop_py_str.
Qed.
End Agreement.

(** * Further properties of [run] *)

(** ** The two sources, separately and together *)

Lemma scan_loop_union (web_ports : gset pystr) (ip_dict : scan_result)
    (targets : gset pystr) :
  scan_loop web_ports ip_dict targets = scan_loop web_ports ip_dict ∅ ∪ targets.
Proof.
  apply set_eq. intros x. rewrite elem_of_union, !elem_of_scan_loop. set_solver.
Qed.

Lemma amass_loop_union (files : amass_files) (targets : gset pystr) :
  amass_loop files targets = amass_loop files ∅ ∪ targets.
Proof.
  apply set_eq. intros x. rewrite elem_of_union, !elem_of_amass_loop. set_solver.
Qed.

Lemma amass_emits_all_lines (files : amass_files) (x : pystr) :
  amass_emits files x ↔ ∃ line, line ∈ all_lines files ∧ x = strip line.
Proof.
  unfold amass_emits, all_lines. split.
  - intros (f & line & Hf & Hl & ->). exists line. split; [|done].
    apply list_elem_of_join. eauto.
  - intros (line & (f & Hl & Hf)%list_elem_of_join & ->). eauto.
Qed.

Lemma scan_emits_nil (web_ports : gset pystr) (x : pystr) :
  ¬ scan_emits web_ports ∅ x.
Proof.
  intros (t & pr & p & (pd & ? & Hd & _) & _). by rewrite lookup_empty in Hd.
Qed.

Lemma amass_emits_nil (x : pystr) : ¬ amass_emits [] x.
Proof. intros (f & ? & Hf & _). by apply not_elem_of_nil in Hf. Qed.

(** X1: both loops only ever add to [targets], and what one adds does not
    depend on what is already there: the entries are the union of what
    the scan result gives with no subdomain file and what the subdomain
    files give with an empty scan result. *)
Theorem X1_sources_independent (web_ports : gset pystr) (ip_dict : scan_result)
    (files : amass_files) :
  (∀ targets,
     scan_loop web_ports ip_dict targets =
       scan_loop web_ports ip_dict ∅ ∪ targets
     ∧ amass_loop files targets = amass_loop files ∅ ∪ targets)
  ∧ gather web_ports ip_dict files =
      gather web_ports ip_dict [] ∪ gather web_ports ∅ files.
Proof.
  split.
  - intros targets. split; [apply scan_loop_union|apply amass_loop_union].
  - apply set_eq. intros x. rewrite elem_of_union, !elem_of_gather.
    pose proof (scan_emits_nil web_ports x). pose proof (amass_emits_nil x).
    tauto.
Qed.

(** X2: the file holds exactly the lines of: every host with port 80
    listed under a protocol other than [udp]; every [host:port] with
    [port] other than 80, in [web_ports] and listed for [host] under a
    protocol other than [udp]; and every subdomain line, stripped.
    Nothing qualifying is left out and nothing else is written. *)
Theorem X2_file_exact (web_ports : gset pystr) (ip_dict : scan_result)
    (files : amass_files) (l : pystr) :
  l ∈ run web_ports ip_dict files ↔
  ∃ x, l = line_of x ∧
    ((∃ protocol, protocol ≠ py "udp" ∧ has_port ip_dict x protocol (py "80"))
     ∨ (∃ host protocol port,
          protocol ≠ py "udp" ∧ port ≠ py "80" ∧ port ∈ web_ports ∧
          has_port ip_dict host protocol port ∧ x = host_port host port)
     ∨ (∃ line, line ∈ all_lines files ∧ x = strip line)).
Proof.
  unfold run, write_targets. rewrite list_elem_of_fmap.
  apply exist_proper. intros x.
  rewrite elem_of_elements, elem_of_gather, amass_emits_all_lines.
  unfold scan_emits, emits. split.
  - intros [-> [(t & pr & p & Hp & Hne & [[-> ->]|(? & ? & ->)])|?]];
      (split; [done|]); eauto 12.
  - intros [-> [(pr & ? & ?)|[(t & pr & p & ? & ? & ? & ? & ->)|?]]];
      (split; [done|]); [left|left|by right].
    + exists x, pr, (py "80"). eauto.
    + exists t, pr, p. eauto 8.
Qed.

Lemma run_nil_iff (web_ports : gset pystr) (ip_dict : scan_result)
    (files : amass_files) :
  run web_ports ip_dict files = [] ↔ gather web_ports ip_dict files = ∅.
Proof.
  unfold run, write_targets. split.
  - intros H%fmap_nil_inv. by apply leibniz_equiv, elements_empty_iff.
  - intros ->. by rewrite elements_empty.
Qed.

(** X3: the file is empty exactly when the subdomain files have no line
    at all, not even a blank one, and every port of the scan result is
    listed under [udp] or is neither 80 nor in [web_ports]. *)
Theorem X3_empty_file (web_ports : gset pystr) (ip_dict : scan_result)
    (files : amass_files) :
  run web_ports ip_dict files = [] ↔
  all_lines files = [] ∧
  ∀ host protocol port, has_port ip_dict host protocol port →
    protocol = py "udp" ∨ (port ≠ py "80" ∧ port ∉ web_ports).
Proof.
  rewrite run_nil_iff. split.
  - intros Hempty. split.
    + destruct (all_lines files) as [|line rest] eqn:E; [done|]. exfalso.
      apply (not_elem_of_empty (C := gset pystr) (strip line)).
      rewrite <- Hempty, elem_of_gather, amass_emits_all_lines.
      right. exists line. rewrite E. split; [by left|done].
    + intros t pr p Hp.
      destruct (decide (pr = py "udp")) as [|Hne]; [by left|right].
      split.
      * intros ->. apply (not_elem_of_empty (C := gset pystr) t).
        rewrite <- Hempty. by eapply elem_of_gather_port_80.
      * intros Hw. destruct (decide (p = py "80")) as [->|H80].
        -- apply (not_elem_of_empty (C := gset pystr) t).
           rewrite <- Hempty. by eapply elem_of_gather_port_80.
        -- apply (not_elem_of_empty (C := gset pystr) (host_port t p)).
           rewrite <- Hempty. by eapply elem_of_gather_policy_port.
  - intros [Hlines Hscan]. apply set_eq. intros x.
    rewrite elem_of_gather, amass_emits_all_lines, Hlines. split.
    + intros [(t & pr & p & Hp & Hne & He)|(line & Hl & _)].
      * destruct (Hscan _ _ _ Hp) as [?|[H80 Hw]]; [done|].
        destruct He as [[? _]|(_ & ? & _)]; done.
      * by apply not_elem_of_nil in Hl.
    + intros Hx. by apply not_elem_of_empty in Hx.
Qed.

(** ** The policy *)

(** X4: a larger [web_ports] never loses a line: every entry, and every
    line of the file, under a policy is also there under any policy that
    contains it. *)
Theorem X4_policy_monotone (web_ports web_ports' : gset pystr)
    (ip_dict : scan_result) (files : amass_files) :
  web_ports ⊆ web_ports' →
  gather web_ports ip_dict files ⊆ gather web_ports' ip_dict files
  ∧ run web_ports ip_dict files ⊆ run web_ports' ip_dict files.
Proof.
  intros Hsub.
  assert (gather web_ports ip_dict files ⊆ gather web_ports' ip_dict files)
    as Hg.
  { intros x. rewrite !elem_of_gather.
    intros [(t & pr & p & Hp & Hne & He)|?]; [left|by right].
    exists t, pr, p. split; [done|]. split; [done|].
    destruct He as [?|(? & ? & ?)]; [by left|right]. set_solver. }
  split; [done|]. intros l. unfold run, write_targets.
  rewrite !list_elem_of_fmap. intros (x & -> & Hx).
  exists x. split; [done|]. rewrite elem_of_elements in *. auto.
Qed.

Lemma X4_policy_monotone_witness :
  ({[ py "8080" ]} : gset pystr) ⊆ {[ py "8080"; py "8443" ]}
  ∧ gather {[ py "8080" ]} scenario1 subdomains1 ⊆
    gather {[ py "8080"; py "8443" ]} scenario1 subdomains1.
Proof.
  assert (({[ py "8080" ]} : gset pystr) ⊆ {[ py "8080"; py "8443" ]}) as H.
  { set_solver. }
  split; [exact H|].
  exact (proj1 (X4_policy_monotone _ _ scenario1 subdomains1 H)).
Defined.

(** X5: whether ["80"] itself is in [web_ports] makes no difference to the
    file: port 80 is decided before the policy is consulted. *)
Theorem X5_port_80_in_policy_is_inert (web_ports : gset pystr)
    (ip_dict : scan_result) (files : amass_files) :
  run ({[ py "80" ]} ∪ web_ports) ip_dict files = run web_ports ip_dict files
  ∧ run (web_ports ∖ {[ py "80" ]}) ip_dict files = run web_ports ip_dict files.
Proof.
  assert (∀ wp wp' : gset pystr,
    (∀ p, p ≠ py "80" → p ∈ wp ↔ p ∈ wp') →
    gather wp ip_dict files = gather wp' ip_dict files) as Hsame.
  { intros wp wp' Hwp. apply set_eq. intros x. rewrite !elem_of_gather.
    unfold scan_emits, emits. split.
    - intros [(t & pr & p & Hp & Hne & [?|(? & ? & ?)])|?]; [left|left|by right];
        exists t, pr, p; split_and!; try done; [by left|right].
      split_and!; [done| |done]. by apply Hwp.
    - intros [(t & pr & p & Hp & Hne & [?|(? & ? & ?)])|?]; [left|left|by right];
        exists t, pr, p; split_and!; try done; [by left|right].
      split_and!; [done| |done]. by apply Hwp. }
  unfold run. split; f_equal; apply Hsame; intros p Hp; set_solver.
Qed.

(** ** What of the inputs the file depends on *)

Lemma gather_mono (web_ports : gset pystr) (ip_dict ip_dict' : scan_result)
    (files files' : amass_files) :
  (∀ host protocol port, protocol ≠ py "udp" →
     has_port ip_dict host protocol port →
     has_port ip_dict' host protocol port) →
  (∀ line, line ∈ all_lines files → line ∈ all_lines files') →
  gather web_ports ip_dict files ⊆ gather web_ports ip_dict' files'.
Proof.
  intros Hscan Hlines x. rewrite !elem_of_gather, !amass_emits_all_lines.
  intros [(t & pr & p & Hp & He)|(line & Hl & ->)].
  - left. exists t, pr, p. split; [|done]. destruct He as [Hne _]. auto.
  - right. exists line. auto.
Qed.

(** X6: the file depends on the scan result only through its triples
    under protocols other than [udp], and on the subdomain files only
    through the set of their lines.  Two inputs that agree on these give
    the same entries and so the same lines in the file, up to their
    order: the order of hosts, files and lines, repeated lines, the way
    lines are split over files, hosts without ports and anything under
    [udp] are all immaterial to which lines are written. *)
Theorem X6_same_triples_same_lines (web_ports : gset pystr)
    (ip_dict ip_dict' : scan_result) (files files' : amass_files) :
  (∀ host protocol port, protocol ≠ py "udp" →
     has_port ip_dict host protocol port ↔
     has_port ip_dict' host protocol port) →
  (∀ line, line ∈ all_lines files ↔ line ∈ all_lines files') →
  gather web_ports ip_dict files = gather web_ports ip_dict' files'
  ∧ run web_ports ip_dict files ≡ₚ run web_ports ip_dict' files'.
Proof.
  intros Hscan Hlines.
  assert (gather web_ports ip_dict files = gather web_ports ip_dict' files')
    as Heq.
  { apply set_eq. intros x. split; apply gather_mono;
      intros; try apply Hscan; try apply Hlines; done. }
  split; [done|]. unfold run. by rewrite Heq.
Qed.

Lemma X6_same_triples_same_lines_witness :
  gather {[ py "8080" ]} scenario1
    [[ py "b.example.com" ]; []; [ py "a.example.com"; py "b.example.com" ]]
  = gather {[ py "8080" ]} (<[ py "10.0.0.9" := ∅ ]> (drop_udp scenario1))
    [[ py "a.example.com"; py "b.example.com" ]].
Proof.
  apply X6_same_triples_same_lines.
  - intros host protocol port Hne. split.
    + intros Hp. assert (has_port (drop_udp scenario1) host protocol port)
        as (pd & ports & Hd & Hpr & Hin) by (by apply has_port_drop_udp).
      exists pd, ports. split_and!; [|done..].
      rewrite lookup_insert_ne; [done|]. intros <-. by vm_compute in Hd.
    + intros (pd & ports & Hd & Hpr & Hin).
      rewrite lookup_insert in Hd. case_decide as Hk.
      * injection Hd as <-. by rewrite lookup_empty in Hpr.
      * eapply has_port_drop_udp. by exists pd, ports.
  - intros line. unfold all_lines. simpl. set_solver.
Defined.

(** X7: more scan triples or more subdomain lines never lose a line of
    the file. *)
Theorem X7_inputs_monotone (web_ports : gset pystr)
    (ip_dict ip_dict' : scan_result) (files files' : amass_files) :
  (∀ host protocol port, protocol ≠ py "udp" →
     has_port ip_dict host protocol port →
     has_port ip_dict' host protocol port) →
  (∀ line, line ∈ all_lines files → line ∈ all_lines files') →
  run web_ports ip_dict files ⊆ run web_ports ip_dict' files'.
Proof.
  intros Hscan Hlines l. unfold run, write_targets.
  rewrite !list_elem_of_fmap. intros (x & -> & Hx).
  exists x. split; [done|]. rewrite elem_of_elements in *.
  by eapply gather_mono.
Qed.

Lemma X7_inputs_monotone_witness :
  run {[ py "8080" ]} {[ py "10.0.0.1" := {[ py "tcp" := {[ py "80" ]} ]} ]}
    [[ py "sub.example.com" ]]
  ⊆ run {[ py "8080" ]} scenario1 subdomains1
  ∧ line_of (py "10.0.0.1") ∈
      run {[ py "8080" ]}
        {[ py "10.0.0.1" := {[ py "tcp" := {[ py "80" ]} ]} ]}
        [[ py "sub.example.com" ]].
Proof.
  split.
  - apply X7_inputs_monotone.
    + intros host protocol port Hne (pd & ports & Hd & Hpr & Hin).
      apply lookup_singleton_Some in Hd as [<- <-].
      apply lookup_singleton_Some in Hpr as [<- <-].
      apply elem_of_singleton in Hin as ->.
      eexists _, _. split_and!; [apply lookup_singleton_eq| |].
      * by vm_compute.
      * set_solver.
    + intros line Hl. unfold all_lines in *. simpl in *. set_solver.
  - vm_compute. set_solver.
Defined.

(** X8: hosts are independent.  For two scan results with no host in
    common, the entries of their union are those of the one together
    with those of the other. *)
Theorem X8_disjoint_hosts (web_ports : gset pystr)
    (ip_dict1 ip_dict2 : scan_result) (files : amass_files) :
  ip_dict1 ##ₘ ip_dict2 →
  gather web_ports (ip_dict1 ∪ ip_dict2) files =
  gather web_ports ip_dict1 files ∪ gather web_ports ip_dict2 [].
Proof.
  intros Hdisj. apply set_eq. intros x.
  rewrite elem_of_union, !elem_of_gather.
  pose proof (amass_emits_nil x) as Hnil.
  assert (scan_emits web_ports (ip_dict1 ∪ ip_dict2) x ↔
          scan_emits web_ports ip_dict1 x ∨ scan_emits web_ports ip_dict2 x)
    as ->; [|tauto].
  unfold scan_emits, has_port. split.
  - intros (t & pr & p & (pd & ports & Hd & Hpr & Hin) & He).
    apply (lookup_union_Some _ _ _ _ Hdisj) in Hd as [Hd|Hd]; [left|right];
      exists t, pr, p; eauto 8.
  - intros [(t & pr & p & (pd & ports & Hd & Hpr & Hin) & He)
           |(t & pr & p & (pd & ports & Hd & Hpr & Hin) & He)];
      exists t, pr, p; (split; [|done]); exists pd, ports;
      (split; [|done]); apply (lookup_union_Some _ _ _ _ Hdisj); auto.
Qed.

Lemma X8_disjoint_hosts_witness :
  scenario1 ##ₘ sctp_only
  ∧ gather {[ py "8080" ]} (scenario1 ∪ sctp_only) subdomains1 =
    gather {[ py "8080" ]} scenario1 subdomains1 ∪
    gather {[ py "8080" ]} sctp_only [].
Proof.
  assert (scenario1 ##ₘ sctp_only) as H.
  { apply map_disjoint_singleton_l. by vm_compute. }
  split; [exact H|]. exact (X8_disjoint_hosts _ _ _ _ H).
Defined.

(** ** Whitespace around subdomain lines *)

Lemma lstrip_app_whitespace (pre s : pystr) :
  Forall (λ c, isspace c = true) pre → lstrip (pre ++ s) = lstrip s.
Proof. induction 1 as [|c pre Hc _ IH]; simpl; [done|]. by rewrite Hc. Qed.

Lemma lstrip_app_nonempty (s t : pystr) :
  lstrip s ≠ [] → lstrip (s ++ t) = lstrip s ++ t.
Proof.
  induction s as [|c s IH]; simpl; [done|].
  destruct (isspace c); [apply IH|done].
Qed.

Lemma lstrip_nil_whitespace (s : pystr) :
  lstrip s = [] → Forall (λ c, isspace c = true) s.
Proof.
  induction s as [|c s IH]; simpl; [constructor|].
  destruct (isspace c) eqn:E; [|done]. intros H. constructor; auto.
Qed.

Lemma lstrip_head (s r : pystr) (c : char) :
  lstrip s = c :: r → isspace c = false.
Proof.
  induction s as [|c' s IH]; simpl; [done|].
  destruct (isspace c') eqn:E; [apply IH|]. by intros [= <- _].
Qed.

Lemma lstrip_fixed (c : char) (r : pystr) :
  isspace c = false → lstrip (c :: r) = c :: r.
Proof. intros H. simpl. by rewrite H. Qed.

Lemma lstrip_snoc (s : pystr) (c : char) :
  isspace c = false → lstrip (s ++ [c]) = lstrip s ++ [c].
Proof.
  intros Hc. induction s as [|c' s IH]; simpl; [by rewrite Hc|].
  destruct (isspace c'); [apply IH|done].
Qed.

Lemma rstrip_cons (c : char) (r : pystr) :
  isspace c = false → rstrip (c :: r) = c :: rstrip r.
Proof.
  intros Hc. unfold rstrip.
  by rewrite reverse_cons, lstrip_snoc, reverse_app by done.
Qed.

Lemma rstrip_app_whitespace (s post : pystr) :
  Forall (λ c, isspace c = true) post → rstrip (s ++ post) = rstrip s.
Proof.
  intros H. unfold rstrip. rewrite reverse_app.
  rewrite lstrip_app_whitespace; [done|]. by apply Forall_reverse.
Qed.

Lemma strip_pad (pre s post : pystr) :
  Forall (λ c, isspace c = true) pre →
  Forall (λ c, isspace c = true) post →
  strip (pre ++ s ++ post) = strip s.
Proof.
  intros Hpre Hpost. unfold strip. rewrite lstrip_app_whitespace by done.
  destruct (lstrip s) as [|c r] eqn:E.
  - rewrite lstrip_whitespace; [done|].
    apply Forall_app. split; [by apply lstrip_nil_whitespace|done].
  - rewrite lstrip_app_nonempty by (by rewrite E). rewrite E.
    by apply rstrip_app_whitespace.
Qed.

Lemma strip_line_of (x : pystr) : strip (line_of x) = strip x.
Proof.
  apply (strip_pad [] x [10]); [constructor|]. by repeat constructor.
Qed.

Lemma lstrip_idemp (s : pystr) : lstrip (lstrip s) = lstrip s.
Proof.
  induction s as [|c s IH]; simpl; [done|].
  destruct (isspace c) eqn:E; [done|]. simpl. by rewrite E.
Qed.

Lemma rstrip_idemp (s : pystr) : rstrip (rstrip s) = rstrip s.
Proof. unfold rstrip. by rewrite reverse_involutive, lstrip_idemp. Qed.

Lemma strip_cases (s : pystr) :
  strip s = [] ∨
  ∃ c r, isspace c = false ∧ lstrip s = c :: r ∧ strip s = c :: rstrip r.
Proof.
  unfold strip. destruct (lstrip s) as [|c r] eqn:E; [by left|right].
  pose proof (lstrip_head _ _ _ E) as Hc.
  exists c, r. by rewrite rstrip_cons.
Qed.

Lemma strip_idemp (s : pystr) : strip (strip s) = strip s.
Proof.
  destruct (strip_cases s) as [->|(c & r & Hc & _ & ->)]; [done|].
  unfold strip. rewrite lstrip_fixed by done.
  by rewrite rstrip_cons, rstrip_idemp.
Qed.

Lemma strip_first (s r : pystr) (c : char) :
  strip s = c :: r → isspace c = false.
Proof.
  destruct (strip_cases s) as [->|(c' & r' & Hc & _ & ->)]; [done|].
  by intros [= <- _].
Qed.

Lemma strip_last (s r : pystr) (c : char) :
  strip s = r ++ [c] → isspace c = false.
Proof.
  unfold strip, rstrip. intros H. apply (f_equal reverse) in H.
  rewrite reverse_involutive, reverse_app in H. simpl in H.
  by eapply lstrip_head.
Qed.

(** X9: whitespace before and after the text of a subdomain line is
    immaterial: the line adds the same entry with or without it. *)
Theorem X9_surrounding_whitespace (pre s post : pystr) :
  Forall (λ c, isspace c = true) pre →
  Forall (λ c, isspace c = true) post →
  strip (pre ++ s ++ post) = strip s
  ∧ ∀ targets, visit_line (pre ++ s ++ post) targets = visit_line s targets.
Proof.
  intros Hpre Hpost. split; [by apply strip_pad|].
  intros targets. unfold visit_line. by rewrite strip_pad.
Qed.

Lemma X9_surrounding_whitespace_witness :
  visit_line ([32; 9] ++ py "a.example.com" ++ [13; 10]) ∅ =
  visit_line (py "a.example.com") ∅.
Proof.
  apply (X9_surrounding_whitespace [32; 9] (py "a.example.com") [13; 10]);
    by repeat constructor.
Defined.

(** X10: whether the lines of the subdomain files still carry their
    newline makes no difference to the file written. *)
Theorem X10_line_terminators (web_ports : gset pystr) (ip_dict : scan_result)
    (files : amass_files) :
  run web_ports ip_dict (fmap (M:=list) (fmap (M:=list) line_of) files) =
  run web_ports ip_dict files.
Proof.
  unfold run. f_equal. apply set_eq. intros x.
  rewrite !elem_of_gather. unfold amass_emits.
  split; (intros [?|(f & line & Hf & Hl & ->)]; [by left|right]).
  - apply list_elem_of_fmap in Hf as (f' & -> & Hf').
    apply list_elem_of_fmap in Hl as (line' & -> & Hl').
    exists f', line'. by rewrite strip_line_of.
  - exists (line_of <$> f), (line_of line).
    rewrite strip_line_of. split_and!; [|by apply list_elem_of_fmap_2|done].
    by apply (list_elem_of_fmap_2 (fmap (M:=list) line_of)).
Qed.

(** X11: an entry that comes from a subdomain line is trimmed: stripping
    it again changes nothing, and it neither starts nor ends with a
    whitespace character. *)
Theorem X11_line_entries_trimmed (files : amass_files) (x : pystr) :
  x ∈ amass_loop files ∅ →
  strip x = x
  ∧ (∀ c r, x = c :: r → isspace c = false)
  ∧ (∀ c r, x = r ++ [c] → isspace c = false).
Proof.
  rewrite elem_of_amass_loop.
  intros [Hx|(f & line & _ & _ & ->)]; [by apply not_elem_of_empty in Hx|].
  split_and!.
  - apply strip_idemp.
  - intros c r. apply strip_first.
  - intros c r. apply strip_last.
Qed.

Lemma X11_line_entries_trimmed_witness :
  py "sub.example.com" ∈ amass_loop subdomains1 ∅
  ∧ strip (py "sub.example.com") = py "sub.example.com".
Proof.
  assert (py "sub.example.com" ∈ amass_loop subdomains1 ∅) as H.
  { apply elem_of_amass_loop. right.
    exists [ py "sub.example.com"; py " "; py "sub.example.com" ],
           (py "sub.example.com").
    split_and!; [by left|by left|by vm_compute]. }
  split; [exact H|]. exact (proj1 (X11_line_entries_trimmed _ _ H)).
Defined.

Lemma text_lines_from_line (x line rest : pystr) :
  10 ∉ x → 13 ∉ x →
  text_lines_from false line (x ++ 10 :: rest) =
  (line ++ x ++ [10]) :: text_lines_from false [] rest.
Proof.
  revert line. induction x as [|c x IH]; intros line Hn Hr; [done|].
  apply not_elem_of_cons in Hn as [Hn1 Hn2].
  apply not_elem_of_cons in Hr as [Hr1 Hr2]. simpl.
  rewrite (proj2 (N.eqb_neq c 10)) by done.
  rewrite (proj2 (N.eqb_neq c 13)) by done.
  rewrite IH by done. by rewrite <- app_assoc.
Qed.

Lemma text_lines_join (out : list pystr) :
  Forall (λ l, ∃ x, l = line_of x ∧ (10 ∉ x) ∧ (13 ∉ x)) out →
  text_lines (mjoin out) = out.
Proof.
  unfold text_lines. induction 1 as [|l out (x & -> & Hn & Hr) _ IH]; [done|].
  simpl. unfold line_of. rewrite <- app_assoc. simpl.
  rewrite text_lines_from_line by done. by rewrite IH.
Qed.

(** X12: the file can be read back.  When no entry contains a line
    break, a text-mode read of what was written, in whatever order,
    yields the written strings again; taken as the only subdomain file,
    with an empty scan result, they give the old entries, stripped.  If
    moreover the entries the scan result gave are trimmed already, they
    give the old entries themselves, so the task then writes the same
    lines again. *)
Theorem X12_output_read_back (web_ports : gset pystr) (ip_dict : scan_result)
    (files : amass_files) (out : list pystr) :
  out ≡ₚ run web_ports ip_dict files →
  (∀ x, x ∈ gather web_ports ip_dict files → (10 ∉ x) ∧ (13 ∉ x)) →
  text_lines (mjoin out) = out
  ∧ gather web_ports ∅ [ text_lines (mjoin out) ] =
      set_map strip (gather web_ports ip_dict files)
  ∧ ((∀ x, x ∈ gather web_ports ip_dict [] → strip x = x) →
     gather web_ports ∅ [ text_lines (mjoin out) ] =
       gather web_ports ip_dict files
     ∧ run web_ports ∅ [ text_lines (mjoin out) ] ≡ₚ
       run web_ports ip_dict files).
Proof.
  intros Hperm Hbreak.
  assert (∀ l, l ∈ out ↔
               ∃ x, l = line_of x ∧ x ∈ gather web_ports ip_dict files)
    as Hout.
  { intros l. rewrite Hperm. unfold run, write_targets.
    rewrite list_elem_of_fmap. by setoid_rewrite elem_of_elements. }
  assert (text_lines (mjoin out) = out) as Hread.
  { apply text_lines_join, Forall_forall. intros l (x & -> & Hx)%Hout.
    exists x. split; [done|]. by apply Hbreak. }
  assert (gather web_ports ∅ [ out ] =
          set_map strip (gather web_ports ip_dict files)) as Hback.
  { apply set_eq. intros x. rewrite elem_of_gather, elem_of_map. split.
    - intros [Hs|(f & line & Hf & Hl & ->)]; [by apply scan_emits_nil in Hs|].
      apply list_elem_of_singleton in Hf as ->.
      apply Hout in Hl as (y & -> & Hy).
      exists y. by rewrite strip_line_of.
    - intros (y & -> & Hy). right. exists out, (line_of y).
      rewrite strip_line_of. split_and!; [by left| |done].
      apply Hout. eauto. }
  rewrite Hread. split_and!; [done..|].
  intros Htrim.
  assert (gather web_ports ∅ [ out ] = gather web_ports ip_dict files) as Heq.
  { rewrite Hback. apply set_eq. intros x. rewrite elem_of_map.
    assert (∀ y, y ∈ gather web_ports ip_dict files → strip y = y) as Hfix.
    { intros y [Hs|(f & line & _ & _ & ->)]%elem_of_gather.
      - apply Htrim, elem_of_gather. by left.
      - apply strip_idemp. }
    split.
    - intros (y & -> & Hy). by rewrite Hfix.
    - intros Hx. exists x. by rewrite Hfix. }
  split; [done|]. unfold run. by rewrite Heq.
Qed.

Lemma X12_output_read_back_witness :
  text_lines (mjoin (run {[ py "8080" ]} scenario1 subdomains1)) =
    run {[ py "8080" ]} scenario1 subdomains1
  ∧ gather {[ py "8080" ]} ∅
      [ text_lines (mjoin (run {[ py "8080" ]} scenario1 subdomains1)) ] =
    gather {[ py "8080" ]} scenario1 subdomains1.
Proof.
  assert (gather {[ py "8080" ]} scenario1 subdomains1 =
    {[ py "10.0.0.1"; py "10.0.0.1:8080"; py "sub.example.com"; [] ]})
    as Hg.
  { vm_compute. reflexivity. }
  assert (gather {[ py "8080" ]} scenario1 [] =
    {[ py "10.0.0.1"; py "10.0.0.1:8080" ]}) as Hs.
  { vm_compute. reflexivity. }
  destruct (X12_output_read_back {[ py "8080" ]} scenario1 subdomains1
              (run {[ py "8080" ]} scenario1 subdomains1))
    as (Hread & _ & Hfix).
  - done.
  - intros x Hx. rewrite Hg in Hx.
    rewrite !elem_of_union, !elem_of_singleton in Hx.
    destruct Hx as [[[->| ->]| ->]| ->];
      split; apply (bool_decide_unpack _); vm_compute; exact I.
  - split; [exact Hread|]. apply Hfix.
    intros x Hx. rewrite Hs in Hx.
    rewrite elem_of_union, !elem_of_singleton in Hx.
    destruct Hx as [->| ->]; vm_compute; reflexivity.
Defined.

(** ** Size of the file *)

Lemma size_add (x : pystr) (targets : gset pystr) :
  (size ({[ x ]} ∪ targets) ≤ 1 + size targets)%nat.
Proof.
  rewrite size_union_alt, size_singleton.
  apply Nat.add_le_mono_l, subseteq_size. set_solver.
Qed.

Lemma size_visit_port (web_ports : gset pystr) (t pr p : pystr)
    (targets : gset pystr) :
  (size (visit_port web_ports t pr p targets) ≤
   (if decide (pr = py "udp") then 0 else 1) + size targets)%nat.
Proof.
  unfold visit_port. destruct (decide (pr = py "udp")); [done|].
  repeat case_decide; try apply size_add. simpl. lia.
Qed.

Lemma size_visit_ports (web_ports : gset pystr) (t pr : pystr)
    (ports targets : gset pystr) :
  (size (visit_ports web_ports t pr ports targets) ≤
   (if decide (pr = py "udp") then 0 else size ports) + size targets)%nat.
Proof.
  unfold visit_ports, set_fold, size, set_size. simpl.
  generalize (elements ports). intros l.
  induction l as [|p l IH]; simpl; [by case_decide|].
  pose proof (size_visit_port web_ports t pr p
                (foldr (visit_port web_ports t pr) targets l)) as H.
  unfold size, set_size in H. simpl in H.
  destruct (decide (pr = py "udp")); simpl in *; lia.
Qed.

Lemma size_visit_protocols (web_ports : gset pystr) (t : pystr)
    (protocol_dict : gmap pystr (gset pystr)) (targets : gset pystr) :
  (size (visit_protocols web_ports t protocol_dict targets) ≤
   count_ports_of protocol_dict + size targets)%nat.
Proof.
  unfold visit_protocols, count_ports_of. rewrite !map_fold_foldr.
  induction (map_to_list protocol_dict) as [|[pr ports] l IH]; simpl; [done|].
  pose proof (size_visit_ports web_ports t pr ports
    (foldr (uncurry (visit_ports web_ports t)) targets l)) as H.
  destruct (decide (pr = py "udp")); simpl in *; lia.
Qed.

Lemma size_scan_loop (web_ports : gset pystr) (ip_dict : scan_result)
    (targets : gset pystr) :
  (size (scan_loop web_ports ip_dict targets) ≤
   count_ports ip_dict + size targets)%nat.
Proof.
  unfold scan_loop, count_ports. rewrite !map_fold_foldr.
  induction (map_to_list ip_dict) as [|[t pd] l IH]; simpl; [done|].
  pose proof (size_visit_protocols web_ports t pd
    (foldr (uncurry (visit_protocols web_ports)) targets l)) as H.
  lia.
Qed.

Lemma size_read_lines (f : list pystr) (targets : gset pystr) :
  (size (read_lines f targets) ≤ length f + size targets)%nat.
Proof.
  unfold read_lines. revert targets.
  induction f as [|line f IH]; intros targets; simpl; [done|].
  etrans; [apply IH|]. unfold visit_line.
  pose proof (size_add (strip line) targets). lia.
Qed.

Lemma size_amass_loop (files : amass_files) (targets : gset pystr) :
  (size (amass_loop files targets) ≤
   length (all_lines files) + size targets)%nat.
Proof.
  unfold amass_loop, all_lines. revert targets.
  induction files as [|f files IH]; intros targets; simpl; [done|].
  etrans; [apply IH|]. rewrite length_app.
  pose proof (size_read_lines f targets). lia.
Qed.

(** X13: the file never has more lines than the scan result lists ports
    under protocols other than [udp], plus the subdomain files have
    lines. *)
Theorem X13_file_length_bound (web_ports : gset pystr) (ip_dict : scan_result)
    (files : amass_files) :
  (length (run web_ports ip_dict files) ≤
   count_ports ip_dict + length (all_lines files))%nat.
Proof.
  unfold run, write_targets. rewrite length_fmap.
  change (length (elements (gather web_ports ip_dict files)))
    with (size (gather web_ports ip_dict files)).
  unfold gather. etrans; [apply size_amass_loop|].
  pose proof (size_scan_loop web_ports ip_dict ∅) as H.
  rewrite size_empty in H. lia.
Qed.

(** * Further properties of [run] on whatever the pickle holds *)

Lemma forallb_elem_of {A} (P : A → bool) (l : list A) (x : A) :
  forallb P l = true → x ∈ l → P x = true.
Proof.
  intros H Hx. rewrite forallb_forall in H. by apply H, list_elem_of_In.
Qed.

Lemma for_each_inv {A S} (P : S → Prop) (body : A → S → result S)
    (l : list A) (s : S) :
  (∀ x s, x ∈ l → P s → ∃ s', body x s = Ok s' ∧ P s') →
  P s → ∃ s', for_each body l s = Ok s' ∧ P s'.
Proof.
  revert s. induction l as [|x l IH]; intros s Hbody Hs; simpl; [eauto|].
  destruct (Hbody x s) as (s1 & -> & Hs1); [by left|done|]. simpl.
  apply IH; [|done]. intros y s2 Hy. apply Hbody. by right.
Qed.

Lemma run_py_ok (web_ports : gset pystr) (env : environment)
    (fs : filesystem) (targets : gset pykey) :
  made env = Ok () →
  gather_py web_ports (unpickled env) (amass env) = Ok targets →
  opened env = Ok () → closed env = Ok () →
  (∀ k, k ∈ targets → written env (line_of (str k)) = Ok ()) →
  run_py web_ports env fs =
    (Ok (), {| target_results := true;
               webtargets := Some (lines_py (order env) targets) |}).
Proof.
  intros Hm Hg Hop Hcl Hw. unfold run_py. rewrite Hm, Hg. simpl.
  unfold write_targets_py. rewrite Hop, Hcl. simpl.
  assert (for_each (λ line (_ : ()), written env line)
            (lines_py (order env) targets) () = Ok ()) as ->; [|done].
  assert (∀ line, line ∈ lines_py (order env) targets →
                  written env line = Ok ()) as Hl.
  { intros line (k & Hk & ->)%elem_of_lines_py. auto. }
  induction (lines_py (order env) targets) as [|line l IH]; simpl; [done|].
  rewrite Hl by (by left). simpl. apply IH. intros ? ?. apply Hl. by right.
Qed.

Section AnyPickle.
Variable web_ports : gset pystr.

(** The scan loop on a dict of dicts of sets: it raises nothing, and it
    keeps [P] if adding an entry for a [str] port that passes [ok]
    keeps [P]. *)
Lemma scan_loop_py_sets (ok : pykey → bool) (P : gset pykey → Prop)
    (o : pyobj) (targets : gset pykey) :
  (∀ target protocol p s, ok (KStr p) = true → P s → ∃ s',
     visit_port_py web_ports target protocol (PyKey (KStr p)) s = Ok s' ∧ P s') →
  is_dict_of_dicts_of_sets ok o = true → P targets →
  ∃ targets', scan_loop_py web_ports o targets = Ok targets' ∧ P targets'.
Proof.
  intros Hstr Ho HP. destruct o as [| | |l]; try done. simpl in Ho.
  unfold scan_loop_py. simpl. apply for_each_inv; [|done].
  intros [t pd] s Hin Hs. simpl.
  pose proof (forallb_elem_of _ _ _ Ho Hin) as Hpd. simpl in Hpd.
  destruct pd as [| | |l2]; try done. simpl in Hpd.
  unfold visit_protocols_py. simpl. apply for_each_inv; [|done].
  intros [pr ports] s2 Hin2 Hs2. simpl.
  pose proof (forallb_elem_of _ _ _ Hpd Hin2) as Hports. simpl in Hports.
  destruct ports as [| |l3|]; try done. simpl in Hports.
  unfold visit_ports_py. simpl. apply for_each_inv; [|done].
  intros port s3 (k & -> & Hk)%list_elem_of_fmap Hs3.
  pose proof (forallb_elem_of _ _ _ Hports Hk) as Hok.
  destruct k as [|z|p]; [| |by apply Hstr];
    (exists s3; split; [|done]); unfold visit_port_py; by case_decide.
Qed.




(** X15: ports that are not strings are ignored without any error.  On a
    dict of dicts of sets none of whose ports is a [str], the scan loop
    leaves [targets] as it was, so the file holds the subdomain entries
    only. *)
Theorem X15_non_str_ports_ignored (o : pyobj) (targets : gset pykey) :
  is_dict_of_dicts_of_sets (λ k, negb (is_str k)) o = true →
  scan_loop_py web_ports o targets = Ok targets.
Proof.
  intros Ho.
  destruct (scan_loop_py_sets (λ k, negb (is_str k)) (λ s, s = targets)
              o targets) as (t1 & H1 & ->); done.
Qed.
End AnyPickle.


Lemma X15_non_str_ports_ignored_witness :
  scan_loop_py {[ py "8080" ]} ports_as_int ∅ = Ok ∅.
Proof.
  apply (X15_non_str_ports_ignored {[ py "8080" ]} ports_as_int ∅).
  by vm_compute.
Defined.

Lemma visit_port_py_udp (web_ports : gset pystr) (target : pykey)
    (port : pyobj) (targets : gset pykey) :
  visit_port_py web_ports target (KStr (py "udp")) port targets = Ok targets.
Proof. unfold visit_port_py. by rewrite decide_True. Qed.

(** X17: the port container is iterated before the protocol is looked
    at.  Under [udp] a container that can be iterated is skipped
    whatever it holds; one that cannot be iterated makes the task raise
    [TypeError] under [udp] as under any other protocol. *)
Theorem X17_udp_ports_still_iterated (web_ports : gset pystr)
    (target protocol : pykey) (ports : pyobj) (targets : gset pykey) :
  visit_ports_py web_ports target (KStr (py "udp")) ports targets =
    match iter ports with
    | Ok _ => Ok targets
    | Raise _ => Raise "TypeError"
    end
  ∧ match iter ports with
    | Ok _ => True
    | Raise _ =>
        visit_ports_py web_ports target protocol ports targets =
        Raise "TypeError"
    end.
Proof.
  unfold visit_ports_py. destruct (iter ports) as [l|cls] eqn:E; simpl.
  - split; [|done]. clear E. revert targets.
    induction l as [|p l IH]; intros targets; [done|].
    cbn [for_each]. rewrite visit_port_py_udp. apply IH.
  - apply iter_raise in E as ->. done.
Qed.

(** X18: on the pickle of a scan result, with readable subdomain files,
    reading raises nothing and leaves the entries of [gather].  If
    creating the folder and opening, writing and closing the output
    raise nothing, the task ends normally and the strings it writes are
    those of [run], each once, in some order; if writing the line of
    some entry raises, the task raises and the file is as it was. *)
Theorem X18_well_shaped_pickle (web_ports : gset pystr) (ip_dict : scan_result)
    (files : amass_files) :
  is_scan_result (scan_to_py ip_dict) = true
  ∧ gather_py web_ports (Ok (scan_to_py ip_dict)) (Ok <$> files) =
      Ok (set_map KStr (gather web_ports ip_dict files))
  ∧ (∀ env fs,
       unpickled env = Ok (scan_to_py ip_dict) → amass env = Ok <$> files →
       made env = Ok () → opened env = Ok () → closed env = Ok () →
       (∀ x, x ∈ gather web_ports ip_dict files →
             written env (line_of x) = Ok ()) →
       ∃ out,
         run_py web_ports env fs =
           (Ok (), {| target_results := true; webtargets := Some out |})
         ∧ out ≡ₚ run web_ports ip_dict files
         ∧ NoDup out)
  ∧ (∀ env fs x cls,
       unpickled env = Ok (scan_to_py ip_dict) → amass env = Ok <$> files →
       x ∈ gather web_ports ip_dict files →
       written env (line_of x) = Raise cls →
       ∃ cls' fs',
         run_py web_ports env fs = (Raise cls', fs')
         ∧ webtargets fs' = webtargets fs).
Proof.
  pose proof (gather_py_scan_result web_ports ip_dict files) as Hg.
  split_and!.
  - apply is_scan_result_scan_to_py.
  - done.
  - intros env fs Hu Ha Hm Hop Hcl Hw.
    exists (lines_py (order env) (set_map KStr (gather web_ports ip_dict files))).
    split_and!.
    + apply run_py_ok; try done; [by rewrite Hu, Ha|].
      intros k (x & -> & Hx)%elem_of_map. by apply Hw.
    + apply lines_py_str.
    + rewrite lines_py_str. apply NoDup_write_targets.
  - intros env fs x cls Hu Ha Hx Hcls.
    assert (∃ c, (run_py web_ports env fs).1 = Raise c) as [c Hc].
    { unfold run_py. destruct (made env) as [[]|c]; simpl; [|eauto].
      rewrite Hu, Ha, Hg. simpl.
      destruct (proj2 (write_targets_py_fails env
                  (set_map KStr (gather web_ports ip_dict files))))
        as [c ->]; [|eauto].
      right. left. exists (KStr x), cls. split; [|done].
      apply elem_of_map. eauto. }
    destruct (run_py web_ports env fs) as [r fs'] eqn:E. simpl in Hc. subst r.
    exists c, fs'. split; [done|]. revert E. unfold run_py.
    destruct (made env) as [[]|c']; [|by intros [= _ <-]].
    destruct (_ ≫= _) as [lines|c']; [done|]. by intros [= _ <-].
Qed.

Lemma X18_well_shaped_pickle_witness :
  ∃ out,
    run_py {[ py "8080" ]}
      (quiet (Ok (scan_to_py scenario1)) (Ok <$> subdomains1)) no_disk =
      (Ok (), {| target_results := true; webtargets := Some out |})
    ∧ out ≡ₚ run {[ py "8080" ]} scenario1 subdomains1.
Proof.
  assert (gather {[ py "8080" ]} scenario1 subdomains1 =
    {[ py "10.0.0.1"; py "10.0.0.1:8080"; py "sub.example.com"; [] ]})
    as Hg.
  { vm_compute. reflexivity. }
  destruct (proj1 (proj2 (proj2
    (X18_well_shaped_pickle {[ py "8080" ]} scenario1 subdomains1)))
    (quiet (Ok (scan_to_py scenario1)) (Ok <$> subdomains1)) no_disk
    eq_refl eq_refl eq_refl eq_refl eq_refl)
    as (out & Hrun & Hperm & _).
  - intros x Hx. rewrite Hg in Hx.
    rewrite !elem_of_union, !elem_of_singleton in Hx.
    destruct Hx as [[[->| ->]| ->]| ->]; vm_compute; reflexivity.
  - exists out. exact (conj Hrun Hperm).
Defined.
